(** * irrigator: the sprinkler control script (control.py)

    A shallow embedding of [control.py]: the zone runner [Irrigate], the
    override check, the weather gate, the schedule loop and the top-level
    decision tree, followed by the properties of the controller. *)

From Stdlib Require Import ZArith QArith Qminmax Qround Lia Lqa.
From stdpp Require Import gmap strings list sorting.
From Equations Require Import Equations.

Local Open Scope string_scope.
Local Open Scope list_scope.
Local Open Scope Z_scope.

(** ** The configuration document (irrigator.json) *)

(** json_data_dict['controls'] *)
Record Controls := mkControls {
  active : bool;
  manual_override : bool }.

(** json_data_dict['zonemap'][name] *)
Record Zone := mkZone {
  GPIO_mapping : Z;
  enabled : bool;
  zone_active : bool }.

(** json_data_dict['schedules'][name]['zones'][zone] *)
Record ZoneEntry := mkZoneEntry {
  duration : Z }.

(** json_data_dict['schedules'][name]; [start_time_active] is
    ['start_time']['active']. *)
Record Schedule := mkSchedule {
  start_time_active : bool;
  zones : gmap string ZoneEntry }.

(** json_data_dict['settings'] *)
Record Settings := mkSettings {
  relay_trigger : Z;
  target_sys : string;
  zone_gate : Z }.

(** json_data_dict['wx_data']; a JSON number is modelled by the rational
    it denotes.  Python compares ints and floats by their exact values,
    so the comparisons of the script are the order of the rationals; the
    one sum the script forms is a float sum and is rounded, see [py_add]. *)
Record WxData := mkWxData {
  units : string;
  temp_enable : bool;
  history_enable : bool;
  forecast_enable : bool;
  forecast_history_enable : bool;
  precip : Q;
  min_temp : Q;
  max_temp : Q }.

Record Doc := mkDoc {
  zonemap : gmap string Zone;
  schedules : gmap string Schedule;
  settings : Settings;
  controls : Controls;
  wx_data : WxData }.

(** wx_status.json, as far as the control script reads it. *)
Record WxStatus := mkWxStatus {
  temp_current : Q;
  rain_history_total : Q;
  rain_forecast : Q }.

(** In-place updates of the document. *)
Definition set_active (b : bool) (d : Doc) : Doc :=
  mkDoc (zonemap d) (schedules d) (settings d)
        (mkControls b (manual_override (controls d))) (wx_data d).

Definition set_manual_override (b : bool) (d : Doc) : Doc :=
  mkDoc (zonemap d) (schedules d) (settings d)
        (mkControls (active (controls d)) b) (wx_data d).

Definition set_zonemap (zm : gmap string Zone) (d : Doc) : Doc :=
  mkDoc zm (schedules d) (settings d) (controls d) (wx_data d).

Definition set_schedules (ss : gmap string Schedule) (d : Doc) : Doc :=
  mkDoc (zonemap d) ss (settings d) (controls d) (wx_data d).

Definition with_zone_active (b : bool) (z : Zone) : Zone :=
  mkZone (GPIO_mapping z) (enabled z) b.

Definition with_start_time_active (b : bool) (s : Schedule) : Schedule :=
  mkSchedule b (zones s).

(** d['zonemap'][k]['active'] = b, where z is d['zonemap'][k] *)
Definition mark_zone (k : string) (b : bool) (z : Zone) (d : Doc) : Doc :=
  set_zonemap (<[k := with_zone_active b z]> (zonemap d)) d.

(** d['schedules'][s]['start_time']['active'] = b, where sched is
    d['schedules'][s] *)
Definition mark_schedule (s : string) (b : bool) (sched : Schedule) (d : Doc) : Doc :=
  set_schedules (<[s := with_start_time_active b sched]> (schedules d)) d.

(** ** Effects: log sink, relay capability, document store, clock *)

(** The platform modules the script chooses from. *)
Inductive Target := CHIP | RasPi | Prototype.

(** The lines handed to WriteLog, one constructor per call site. *)
Inductive LogLine :=
| LogStarting                              (* ***** Control Script Starting ***** *)
| LogInitPlatform (target : Target)        (* Initializing Relays on ... *)
| LogWxValues (temp hist fcst : option Q)  (* Current Temperature: .. Precipitation History: .. *)
| LogForce                                 (* Force run selected. Ignoring weather. *)
| LogInitSelected                          (* Initialize Relays Selected. *)
| LogScheduleSelected (s : string)         (* Schedule Run Selected with Schedule: s *)
| LogScheduleFound (s : string)            (* s found in JSON file. Running Now. *)
| LogScheduleNotFound (s : string)         (* s not found in JSON file.  Exiting Now. *)
| LogManualSelected                        (* Manual Run Selected. *)
| LogZoneNotFound (z : string)             (* z not found in JSON file.  Exiting. *)
| LogWxCancelled (reason : string)         (* Irrigation cancelled due to weather ... reason *)
| LogNoAction                              (* No Action. *)
| LogTurningOn (z : string) (d : Z)        (* Turning on Zone: z for d minutes. *)
| LogTurningOff (z : string)               (* Turning off Zone: z. *)
| LogExiting (errorcode : Z)               (* Exiting with errorcode = .. *)
| LogEnded.                                (* ***** Control Script Ended ***** *)

(** Everything the script does to the outside world, in order. *)
Inductive Event :=
| WriteLog (l : LogLine)
| PlatformNew (outpins : gmap string Z) (trigger : Z)
| SetRelay (level : Z) (zone : string)
| Cleanup
| ReadDoc (d : Doc)
| WriteDoc (d : Doc)
| Sleep (seconds : Z).

(** The surroundings of one invocation.  [ext_override k] is what the
    companion process wrote into controls.manual_override since the
    previous read of the document, seen by the [k]-th read ([None]: it
    wrote nothing); the other fields of the file are written by the
    script only.  [setrelay_rc k] is the code returned by the [k]-th
    call of platform.setrelay.  [wx_file] is the content of
    wx_status.json, [None] when reading it raises.  [turn_time k] is the
    time, in seconds, that a turn of the hold loop takes from one reading
    of time.time() to the next when it ends with [k] reads made: the read
    of the settings file and the sleep, which may last longer than asked
    for. *)
Record Env := mkEnv {
  ext_override : nat -> option bool;
  setrelay_rc : nat -> Z;
  wx_file : option WxStatus;
  turn_time : nat -> Q }.

(** The state of the outside world.  The script reads the clock in
    Irrigate only, once before the hold loop and once at the end of every
    turn, and uses the difference of two readings; [clock] is the time
    that went by in the turns of the hold loops so far.  The time that the
    other calls take is between no two readings that are compared.  The
    wall clock is taken not to be set during a run. *)
Record World := mkWorld {
  file : Doc;              (* content of the JSON settings file *)
  reads : nat;             (* number of ReadJSON calls so far *)
  relay_calls : nat;       (* number of platform.setrelay calls so far *)
  clock : Q;               (* time.time(), in seconds *)
  trace : list Event }.

Definition emit (e : Event) (w : World) : World :=
  mkWorld (file w) (reads w) (relay_calls w) (clock w) (trace w ++ [e]).

(** Uncaught Python exceptions. *)
Inductive Exn :=
| KeyError (key : string)
| ValueError (text : string).   (* int(text): invalid literal *)

(** A computation either returns a value or raises; both leave a world. *)
Inductive Result (A : Type) :=
| Ok (a : A) (w : World)
| Raise (e : Exn) (w : World).
Arguments Ok {A} a w.
Arguments Raise {A} e w.

Definition M (A : Type) : Type := World -> Result A.

Global Instance M_ret : MRet M := fun A a w => Ok a w.

Global Instance M_bind : MBind M := fun A B k m w =>
  match m w with
  | Ok a w' => k a w'
  | Raise e w' => Raise e w'
  end.

Definition raise {A} (e : Exn) : M A := fun w => Raise e w.

(** An operation that cannot raise. *)
Definition lift {A} (f : World -> A * World) : M A :=
  fun w => let (a, w') := f w in Ok a w'.

Definition world_of {A} (r : Result A) : World :=
  match r with Ok _ w => w | Raise _ w => w end.

(** The value returned or the exception raised. *)
Definition outcome {A} (r : Result A) : A + Exn :=
  match r with Ok a _ => inl a | Raise e _ => inr e end.

(** d[key] on a dict: KeyError when the key is absent. *)
Definition getitem {V} (m : gmap string V) (key : string) : M V :=
  match m !! key with
  | Some v => mret v
  | None => raise (KeyError key)
  end.

(** Python's [not x] on an integer, as the integer it is used as. *)
Definition py_not (x : Z) : Z := if x =? 0 then 1 else 0.

Section Control.

Variable env : Env.

(** common.WriteLog *)
Definition write_log (l : LogLine) (w : World) : unit * World :=
  (tt, emit (WriteLog l) w).

(** common.ReadJSON on the settings file: the companion process may have
    set or reset the override flag in the file since the last read. *)
Definition ReadJSON (w : World) : Doc * World :=
  let d := match ext_override env (reads w) with
           | Some b => set_manual_override b (file w)
           | None => file w
           end in
  (d, mkWorld d (S (reads w)) (relay_calls w) (clock w) (trace w ++ [ReadDoc d])).

(** common.WriteJSON on the settings file. *)
Definition WriteJSON (d : Doc) (w : World) : unit * World :=
  (tt, mkWorld d (reads w) (relay_calls w) (clock w) (trace w ++ [WriteDoc d])).

(** platform.setrelay(level, zonename) *)
Definition setrelay (level : Z) (zonename : string) (w : World) : Z * World :=
  (setrelay_rc env (relay_calls w),
   mkWorld (file w) (reads w) (S (relay_calls w)) (clock w)
           (trace w ++ [SetRelay level zonename])).

(** platform.cleanup() *)
Definition cleanup (w : World) : unit * World :=
  (tt, emit Cleanup w).

(** time.sleep(seconds), up to the next reading of the clock: the turn
    takes its [turn_time], and never less than the seconds slept. *)
Definition time_sleep (seconds : Z) (w : World) : World :=
  mkWorld (file w) (reads w) (relay_calls w)
          (clock w + Qmax (inject_Z seconds) (turn_time env (reads w)))
          (trace w ++ [Sleep seconds]).

(** ** CheckOverride *)
Definition CheckOverride (w : World) : Z * World :=
  let (json_data_dict, w1) := ReadJSON w in
  (if manual_override (controls json_data_dict) then 42 else 0, w1).

(** ** Irrigate: the hold loop

    while (now - starttime < (duration * 60)):
        if (CheckOverride(json_data_filename) > 0): break
        else: time.sleep(1)
        now = time.time()

    [now] is the clock of the world the loop test is made in; every turn
    that does not break takes a second at least, which bounds the number
    of turns. *)
Equations? hold (starttime : Q) (duration : Z) (w : World) : World
  by wf (Z.to_nat (Qceiling (starttime + inject_Z (duration * 60) - clock w))) lt :=
  hold starttime duration w
    with Qlt_le_dec (clock w - starttime) (inject_Z (duration * 60)) := {
    | right _ => w
    | left Hlt =>
        if (CheckOverride w).1 >? 0 then (CheckOverride w).2
        else hold starttime duration (time_sleep 1 (CheckOverride w).2) }.
Proof.
  cbn [time_sleep clock CheckOverride ReadJSON snd].
  change (inject_Z 1) with 1%Q.
  match goal with |- context [Qmax ?x ?y] =>
    pose proof (Q.le_max_l x y) as Ht; set (t := Qmax x y) in *; clearbody t end.
  match goal with H : (_ < ?D)%Q |- _ => set (D' := D) in *; clearbody D' end.
  match goal with |- (Z.to_nat (Qceiling ?b) < Z.to_nat (Qceiling ?a))%nat =>
    pose proof (Qle_ceiling a) as Hce; pose proof (Qceiling_lt b) as Hlt';
    assert (Hab : (b <= a - 1)%Q) by lra;
    assert (Ha : (0 < a)%Q) by lra;
    set (a' := a) in *; set (b' := b) in *; clearbody a' b' end.
  unfold Z.sub in Hlt'. rewrite inject_Z_plus in Hlt'.
  change (inject_Z (- (1))) with (-1 # 1)%Q in Hlt'.
  assert (Hz : (inject_Z (Qceiling b') < inject_Z (Qceiling a'))%Q /\
               (inject_Z 0 < inject_Z (Qceiling a'))%Q).
  { change (inject_Z 0) with 0%Q.
    set (cb := inject_Z (Qceiling b')) in *. set (ca := inject_Z (Qceiling a')) in *.
    clearbody ca cb. lra. }
  rewrite <- !Zlt_Qlt in Hz. lia.
Qed.

(** def Irrigate(platform, zonename, duration, json_data_filename, relay_trigger=0) *)
Definition Irrigate (zonename : string) (duration : Z) (relay_trigger : Z)
    (w : World) : Z * World :=
  let errorcode := 0 in
  let w := (write_log (LogTurningOn zonename duration) w).2 in
  let (rc, w) := setrelay relay_trigger zonename w in    (* Turning on Zone *)
  let errorcode := errorcode + rc in
  let starttime := clock w in
  let w := hold starttime duration w in
  let w := (write_log (LogTurningOff zonename) w).2 in
  let (rc, w) := setrelay (py_not relay_trigger) zonename w in   (* Turning off Zone *)
  let errorcode := errorcode + rc in
  let (ov, w) := CheckOverride w in
  let errorcode := if ov >? 0 then 42 else errorcode in
  (errorcode, w).

(** ** checkweather *)

(** Modelled from the spec: common.create_wx_json() (module common is
    missing); the spec describes the snapshot used after a failed read as
    zero-valued. *)
Definition create_wx_json : WxStatus := mkWxStatus 0 0 0.

Definition checkweather : WxStatus * Z :=
  match wx_file env with
  | Some wx_status => (wx_status, 0)
  | None => (create_wx_json, 6)
  end.

End Control.

(** ** The weather flags (lines 211-238) *)

(** a > b on JSON numbers *)
Definition Qgtb (a b : Q) : bool := negb (Qle_bool a b).
(** a < b on JSON numbers *)
Definition Qltb (a b : Q) : bool := negb (Qle_bool b a).

(** The quotient n / d, d > 0, rounded to the nearest integer, a tie to
    the even one. *)
Definition round_half_even (n d : Z) : Z :=
  let q := n / d in
  match 2 * (n mod d) ?= d with
  | Lt => q
  | Gt => q + 1
  | Eq => if Z.even q then q else q + 1
  end.

(** The double nearest to a rational, ties to even (binary64: 53 bits,
    least exponent -1074).  A number that is a double already, such as an
    integer of at most 53 bits, is left as it is.  A number beyond the
    largest double keeps 53 bits here and so compares with the doubles as
    inf does. *)
Definition round64 (x : Q) : Q :=
  let n := Z.abs (Qnum x) in
  let d := Z.pos (Qden x) in
  if n =? 0 then 0%Q else
  let e0 := Z.log2 n - Z.log2 d in
  (* 2^e <= n/d < 2^(e+1) *)
  let e := if (if 0 <=? e0 then d * 2 ^ e0 <=? n else d <=? n * 2 ^ (- e0))
           then e0 else e0 - 1 in
  (* the last place of the mantissa *)
  let u := Z.max (e - 52) (-1074) in
  let m := if 0 <=? u then round_half_even n (d * 2 ^ u)
           else round_half_even (n * 2 ^ (- u)) d in
  let m := if Qnum x <? 0 then - m else m in
  if 0 <=? u then inject_Z (m * 2 ^ u) else Qmake m (Z.to_pos (2 ^ (- u))).

(** a + b on two JSON numbers of which one at least is a float: both are
    taken as doubles and the sum is rounded to a double.  For two ints
    Python adds exactly; that is the same number as long as the sum has
    at most 53 bits. *)
Definition py_add (a b : Q) : Q := round64 (round64 a + round64 b).

Definition tag_history : string := "(Precipitation History) ".
Definition tag_forecast : string := "(Precipitation Forecast) ".
Definition tag_temperature : string := "(Temperature) ".
Definition tag_forecast_history : string := "(Precipitation Forecast + History) ".

(** Returns (wx_cancel, wx_cancel_reason). *)
Definition wx_flags (wxd : WxData) (wx_status : WxStatus) : bool * string :=
  let wx_cancel := false in
  let wx_cancel_reason := "" in
  (* Check rain history > precip max *)
  let '(wx_cancel, wx_cancel_reason) :=
    if history_enable wxd && Qgtb (rain_history_total wx_status) (precip wxd)
    then (true, wx_cancel_reason +:+ tag_history)
    else (wx_cancel, wx_cancel_reason) in
  (* Check rain forecast > precip max *)
  let '(wx_cancel, wx_cancel_reason) :=
    if forecast_enable wxd && Qgtb (rain_forecast wx_status) (precip wxd)
    then (true, wx_cancel_reason +:+ tag_forecast)
    else (wx_cancel, wx_cancel_reason) in
  (* Check temperature exceeds limits *)
  let '(wx_cancel, wx_cancel_reason) :=
    if temp_enable wxd &&
       (Qltb (temp_current wx_status) (min_temp wxd) ||
        Qgtb (temp_current wx_status) (max_temp wxd))
    then (true, wx_cancel_reason +:+ tag_temperature)
    else (wx_cancel, wx_cancel_reason) in
  (* Check rain forecast + history > precip max *)
  let '(wx_cancel, wx_cancel_reason) :=
    if forecast_history_enable wxd &&
       Qgtb (py_add (rain_forecast wx_status) (rain_history_total wx_status))
            (round64 (precip wxd))
    then (true, wx_cancel_reason +:+ tag_forecast_history)
    else (wx_cancel, wx_cancel_reason) in
  (wx_cancel, wx_cancel_reason).

(** ** The command line *)

(** The arguments as argparse hands them over (line 112); -j is not
    modelled, the settings file is the file of the world. *)
Record CmdLine := mkCmdLine {
  cl_zone : option string;        (* -z *)
  cl_duration : option string;    (* -d *)
  cl_schedule : option string;    (* -s *)
  cl_force : bool;                (* -f *)
  cl_init : bool }.               (* -i *)

(** The arguments once int() has accepted the text of -d (line 148);
    [arg_duration] is [None] when -d is missing or empty. *)
Record Args := mkArgs {
  arg_zone : option string;       (* -z *)
  arg_duration : option Z;        (* -d, after int() *)
  arg_schedule : option string;   (* -s *)
  arg_force : bool;               (* -f *)
  arg_init : bool }.              (* -i *)

(** Truth value of an optional string argument: None and '' are false. *)
Definition truthy (a : option string) : bool :=
  match a with
  | Some s => negb (String.eqb s "")
  | None => false
  end.

(** int(text) on an ASCII text: blanks around, an optional sign, decimal
    digits, single underscores between digits; [None] stands for
    ValueError. *)
Definition is_space (c : Ascii.ascii) : bool :=
  let n := Ascii.N_of_ascii c in
  ((9 <=? n) && (n <=? 13) || (28 <=? n) && (n <=? 32))%N.

Definition digit_of (c : Ascii.ascii) : option Z :=
  let n := Z.of_N (Ascii.N_of_ascii c) in
  if (48 <=? n) && (n <=? 57) then Some (n - 48) else None.

Fixpoint lstrip (l : list Ascii.ascii) : list Ascii.ascii :=
  match l with
  | c :: l' => if is_space c then lstrip l' else l
  | [] => []
  end.

Fixpoint int_digits (acc : Z) (after_digit : bool) (l : list Ascii.ascii) : option Z :=
  match l with
  | [] => if after_digit then Some acc else None
  | c :: l' =>
      match digit_of c with
      | Some d => int_digits (10 * acc + d) true l'
      | None =>
          if (Ascii.N_of_ascii c =? 95)%N (* "_" *) && after_digit
          then int_digits acc false l'
          else None
      end
  end.

Definition py_int (text : string) : option Z :=
  let l := reverse (lstrip (reverse (lstrip (String.list_ascii_of_string text)))) in
  match l with
  | c :: l' =>
      if (Ascii.N_of_ascii c =? 43)%N (* "+" *) then int_digits 0 false l'
      else if (Ascii.N_of_ascii c =? 45)%N (* "-" *) then Z.opp <$> int_digits 0 false l'
      else int_digits 0 false l
  | [] => None
  end.

(** Lines 147-150: duration = int(args.duration) when -d is given and not
    empty; [None] when int() raises. *)
Definition parse_args (cl : CmdLine) : option Args :=
  if truthy (cl_duration cl)
  then n ← py_int (default "" (cl_duration cl));
       Some (mkArgs (cl_zone cl) (Some n) (cl_schedule cl) (cl_force cl) (cl_init cl))
  else Some (mkArgs (cl_zone cl) None (cl_schedule cl) (cl_force cl) (cl_init cl)).

(** ** The main if / else tree *)

Inductive Branch :=
| BInit | BSchedule | BManual | BWeatherCancelled | BNoAction.

Definition select_branch (init schedule_run wx_cancel force : bool) : Branch :=
  if init then BInit
  else if bool_decide (schedule_run = true) &&
          (bool_decide (wx_cancel = false) || bool_decide (force = true))
  then BSchedule
  else if bool_decide (schedule_run = false) &&
          (bool_decide (wx_cancel = false) || bool_decide (force = true))
  then BManual
  else if bool_decide (wx_cancel = true) then BWeatherCancelled
  else BNoAction.

Definition select_platform (target_sys : string) : Target :=
  if String.eqb target_sys "CHIP" then CHIP
  else if String.eqb target_sys "RasPi" then RasPi
  else Prototype.

(** sorted(d.items()): the keys of a dict are distinct, so the order of
    the pairs is the order of their keys. *)
Definition item_le {V} (a b : string * V) : Prop := String.le a.1 b.1.

Definition sorted_items {V} (m : gmap string V) : list (string * V) :=
  merge_sort item_le (map_to_list m).

Section Main.

Variable env : Env.

(** The body of the loop over the zones of a schedule (lines 258-269);
    the loop state is (json_data_dict, errorcode). *)
Fixpoint zone_loop (relay_trigger : Z) (items : list (string * ZoneEntry))
    (json_data_dict : Doc) (errorcode : Z) : M (Doc * Z) :=
  match items with
  | [] => mret (json_data_dict, errorcode)
  | (index_key, index_value) :: rest =>
      z ← getitem (zonemap json_data_dict) index_key;
      if bool_decide (enabled z = true) && negb (duration index_value =? 0)
      then
        (* Set Zone Active *)
        let json_data_dict := mark_zone index_key true z json_data_dict in
        lift (WriteJSON json_data_dict) ;;
        (* Run Zone *)
        errorcode ← lift (Irrigate env index_key (duration index_value) relay_trigger);
        (* Read latest control data from JSON file *)
        json_data_dict ← lift (ReadJSON env);
        z ← getitem (zonemap json_data_dict) index_key;
        (* Set Zone Active = False *)
        let json_data_dict := mark_zone index_key false z json_data_dict in
        lift (WriteJSON json_data_dict) ;;
        zone_loop relay_trigger rest json_data_dict errorcode
      else zone_loop relay_trigger rest json_data_dict errorcode
  end.

(** The scheduled-run branch (lines 250-276). *)
Definition schedule_run_branch (relay_trigger : Z) (schedule_selected : string)
    (json_data_dict : Doc) (errorcode : Z) : M (Doc * Z) :=
  lift (write_log (LogScheduleSelected schedule_selected)) ;;
  match schedules json_data_dict !! schedule_selected with
  | Some sched =>
      lift (write_log (LogScheduleFound schedule_selected)) ;;
      (* Set Schedule active = True *)
      let json_data_dict := mark_schedule schedule_selected true sched json_data_dict in
      lift (WriteJSON json_data_dict) ;;
      '(json_data_dict, errorcode) ←
         zone_loop relay_trigger (sorted_items (zones sched)) json_data_dict errorcode;
      sched ← getitem (schedules json_data_dict) schedule_selected;
      (* Set Schedule active = False *)
      let json_data_dict := mark_schedule schedule_selected false sched json_data_dict in
      lift (WriteJSON json_data_dict) ;;
      mret (json_data_dict, errorcode)
  | None =>
      lift (write_log (LogScheduleNotFound schedule_selected)) ;;
      mret (json_data_dict, 1)
  end.

(** The manual-run branch (lines 279-291). *)
Definition manual_run_branch (relay_trigger : Z) (zone : string) (duration : Z)
    (json_data_dict : Doc) : M (Doc * Z) :=
  lift (write_log LogManualSelected) ;;
  match zonemap json_data_dict !! zone with
  | Some z =>
      (* Set Zone Active = True *)
      let json_data_dict := mark_zone zone true z json_data_dict in
      lift (WriteJSON json_data_dict) ;;
      errorcode ← lift (Irrigate env zone duration relay_trigger);
      z ← getitem (zonemap json_data_dict) zone;
      (* Set Zone Active = False *)
      let json_data_dict := mark_zone zone false z json_data_dict in
      lift (WriteJSON json_data_dict) ;;
      mret (json_data_dict, errorcode)
  | None =>
      lift (write_log (LogZoneNotFound zone)) ;;
      mret (json_data_dict, 1)
  end.

(** The global variables of the script when it reaches the main
    if / else tree. *)
Record Vars := mkVars {
  v_json_data_dict : Doc;
  v_relay_trigger : Z;
  v_schedule_selected : string;
  v_schedule_run : bool;
  v_zone : string;
  v_duration : Z;
  v_init : bool;
  v_wx_status : WxStatus;
  v_force : bool;
  v_wx_cancel : bool;
  v_wx_cancel_reason : string;
  v_errorcode : Z }.

(** The arguments as the script uses them; int() raises ValueError on a
    text of -d it does not accept, and nothing catches it. *)
Definition read_args (cl : CmdLine) : M Args :=
  match parse_args cl with
  | Some args => mret args
  | None => raise (ValueError (default "" (cl_duration cl)))
  end.

(** Lines 101-238: settings file, arguments, platform object, weather
    status, force flag and weather flags.  [read] stands for lines
    135-150, where the arguments are taken over. *)
Definition setup_with (read : M Args) : M Vars :=
  lift (write_log LogStarting) ;;
  json_data_dict ← lift (ReadJSON env);
  let relay_trigger := relay_trigger (settings json_data_dict) in
  (* Flag Control Active at beginning of script *)
  let json_data_dict := set_active true json_data_dict in
  lift (WriteJSON json_data_dict) ;;
  args ← read;
  let schedule_selected :=
    if truthy (arg_schedule args) then default "" (arg_schedule args) else "null" in
  let schedule_run := truthy (arg_schedule args) in
  let zone := if truthy (arg_zone args) then default "" (arg_zone args) else "null" in
  let duration := default 0 (arg_duration args) in
  (* Store init relays flag *)
  let init := arg_init args in
  (* Init outpin structure *)
  let outpins := <["gate" := zone_gate (settings json_data_dict)]>
                   (GPIO_mapping <$> zonemap json_data_dict) in
  (* Init platform object *)
  lift (write_log (LogInitPlatform (select_platform (target_sys (settings json_data_dict))))) ;;
  lift (fun w => (tt, emit (PlatformNew outpins relay_trigger) w)) ;;
  (* Check weather status *)
  let wx_status := (checkweather env).1 in
  let errorcode := (checkweather env).2 in
  let wxd := wx_data json_data_dict in
  (if negb (errorcode =? 0) then mret tt
   else if temp_enable wxd || history_enable wxd || forecast_enable wxd
        then lift (write_log (LogWxValues
               (if temp_enable wxd then Some (temp_current wx_status) else None)
               (if history_enable wxd then Some (rain_history_total wx_status) else None)
               (if forecast_enable wxd then Some (rain_forecast wx_status) else None)))
        else mret tt) ;;
  (* Check if force run is enabled. *)
  (if arg_force args then lift (write_log LogForce) else mret tt) ;;
  let force := arg_force args in
  (* Check weather flags *)
  let wx_cancel := (wx_flags wxd wx_status).1 in
  let wx_cancel_reason := (wx_flags wxd wx_status).2 in
  mret (mkVars json_data_dict relay_trigger schedule_selected schedule_run zone
               duration init wx_status force wx_cancel wx_cancel_reason errorcode).

(** The setup for arguments that int() has accepted. *)
Definition setup (args : Args) : M Vars := setup_with (mret args).

(** The main if / else tree (lines 244-303); yields the document and
    errorcode the script goes on with. *)
Definition decision_tree (v : Vars) : M (Doc * Z) :=
  match select_branch (v_init v) (v_schedule_run v) (v_wx_cancel v) (v_force v) with
  | BInit =>
      lift (write_log LogInitSelected) ;;
      mret (v_json_data_dict v, 0)
  | BSchedule =>
      schedule_run_branch (v_relay_trigger v) (v_schedule_selected v)
                          (v_json_data_dict v) (v_errorcode v)
  | BManual =>
      manual_run_branch (v_relay_trigger v) (v_zone v) (v_duration v)
                        (v_json_data_dict v)
  | BWeatherCancelled =>
      lift (write_log (LogWxCancelled (v_wx_cancel_reason v))) ;;
      mret (v_json_data_dict v, 1)
  | BNoAction =>
      lift (write_log LogNoAction) ;;
      mret (v_json_data_dict v, 0)
  end.

(** Lines 305-319: cleanup, the last log lines, the final write, exit(). *)
Definition finish (r : Doc * Z) : M Z :=
  let '(json_data_dict, errorcode) := r in
  (* Cleanup GPIOs if on SBC *)
  lift cleanup ;;
  (* Write Result and exit *)
  lift (write_log (LogExiting errorcode)) ;;
  lift (write_log LogEnded) ;;
  let json_data_dict := set_manual_override false (set_active false json_data_dict) in
  lift (WriteJSON json_data_dict) ;;
  mret errorcode.

(** The whole script, from "Control Script Starting" to exit(), for
    arguments that int() has accepted; the value returned is the final
    errorcode. *)
Definition main (args : Args) : M Z :=
  v ← setup args;
  r ← decision_tree v;
  finish r.

(** control.py on a command line. *)
Definition control (cl : CmdLine) : M Z :=
  v ← setup_with (read_args cl);
  r ← decision_tree v;
  finish r.

End Main.

(** ** Observations on a trace *)

(** The calls of platform.setrelay, in order. *)
Definition relay_trace (t : list Event) : list (Z * string) :=
  omap (fun e => match e with SetRelay l z => Some (l, z) | _ => None end) t.

(** The calls of platform.cleanup. *)
Definition cleanup_trace (t : list Event) : list unit :=
  omap (fun e => match e with Cleanup => Some tt | _ => None end) t.

(** The lines written to the log sink, in order. *)
Definition log_trace (t : list Event) : list LogLine :=
  omap (fun e => match e with WriteLog l => Some l | _ => None end) t.

(** The override flag as seen by each read of the document, in order. *)
Definition override_trace (t : list Event) : list bool :=
  omap (fun e => match e with
                 | ReadDoc d => Some (manual_override (controls d))
                 | _ => None
                 end) t.

(** What happened between two worlds of one run. *)
Definition emitted (w w' : World) : list Event :=
  drop (length (trace w)) (trace w').

(** The events of the hold loop: reads of the document and sleeps. *)
Definition poll_event (e : Event) : Prop :=
  match e with ReadDoc _ | Sleep _ => True | _ => False end.

(** Two documents that differ at most in controls.manual_override. *)
Definition same_config (d d' : Doc) : Prop :=
  d' = set_manual_override (manual_override (controls d')) d.

(** The reason string mentions a tag. *)
Definition mentions (tag reason : string) : bool :=
  bool_decide (is_Some (String.index 0 tag reason)).

(** The events of the setup phase. *)
Definition setup_event (e : Event) : Prop :=
  match e with
  | WriteLog (LogStarting | LogInitPlatform _ | LogWxValues _ _ _ | LogForce)
  | PlatformNew _ _ | ReadDoc _ | WriteDoc _ => True
  | _ => False
  end.

(** The events of a scheduled or manual run. *)
Definition run_event (e : Event) : Prop :=
  match e with
  | WriteLog (LogScheduleSelected _ | LogScheduleFound _ | LogScheduleNotFound _
             | LogManualSelected | LogZoneNotFound _
             | LogTurningOn _ _ | LogTurningOff _)
  | SetRelay _ _ | ReadDoc _ | WriteDoc _ | Sleep _ => True
  | _ => False
  end.

(** The events of the main if / else tree with the given force flag: those
    of a run, the line of the initialize branch, and the cancellation
    line, the latter only without force. *)
Definition tree_event (force : bool) (e : Event) : Prop :=
  run_event e \/ e = WriteLog LogInitSelected \/
  (force = false /\ exists reason, e = WriteLog (LogWxCancelled reason)).

(** The events of the closing phase. *)
Definition finish_event (e : Event) : Prop :=
  match e with
  | Cleanup | WriteLog (LogExiting _ | LogEnded) | WriteDoc _ => True
  | _ => False
  end.

(** A computation that emits only events in [P], whether it returns or
    raises. *)
Definition emits {A} (P : Event -> Prop) (m : M A) : Prop :=
  forall w, exists evs, trace (world_of (m w)) = trace w ++ evs /\ Forall P evs.

(** zonemap[k]['enabled'], false for a zone that is not in the map. *)
Definition zone_enabled (d : Doc) (k : string) : bool :=
  match zonemap d !! k with
  | Some z => enabled z
  | None => false
  end.

(** The entries of a schedule that are run: zone enabled, duration not 0. *)
Definition included (d : Doc) (items : list (string * ZoneEntry)) :
    list (string * ZoneEntry) :=
  filter (fun it => zone_enabled d it.1 = true /\ duration it.2 <> 0) items.

(** The zones a run of the schedule activates, in the order of the run. *)
Definition scheduled_zones (d : Doc) (sched : Schedule) : list string :=
  (included d (sorted_items (zones sched))).*1.

(** The two relay calls of one zone run. *)
Definition onoff (relay_trigger : Z) (zonename : string) : list (Z * string) :=
  [(relay_trigger, zonename); (py_not relay_trigger, zonename)].

(** The configuration with the history check switched on or off. *)
Definition with_history_enable (b : bool) (wxd : WxData) : WxData :=
  mkWxData (units wxd) (temp_enable wxd) b (forecast_enable wxd)
           (forecast_history_enable wxd) (precip wxd) (min_temp wxd) (max_temp wxd).

(** ** A sample installation

    Three zones, one of them disabled, and a schedule; used to run the
    script on concrete inputs. *)

Definition ex_zonemap : gmap string Zone :=
  {[ "frontlawn" := mkZone 4 true false;
     "backyard" := mkZone 17 true false;
     "garden" := mkZone 27 false false ]}.

(** The schedule "evening" still names a zone, "sidebed", that is no
    longer in the zone map. *)
Definition ex_schedules : gmap string Schedule :=
  {[ "morning" := mkSchedule false
       {[ "frontlawn" := mkZoneEntry 1;
          "garden" := mkZoneEntry 2;
          "backyard" := mkZoneEntry 1 ]};
     "evening" := mkSchedule false
       {[ "sidebed" := mkZoneEntry 1;
          "backyard" := mkZoneEntry 1 ]} ]}.

Definition ex_wx_data : WxData :=
  mkWxData "F" true true false false (1 # 2) 40 100.

Definition ex_doc : Doc :=
  mkDoc ex_zonemap ex_schedules (mkSettings 0 "RasPi" 22)
        (mkControls false false) ex_wx_data.

Definition ex_world : World := mkWorld ex_doc 0 0 0 [].

(** Dry weather, nobody touches the override flag, the relays answer 0,
    every turn of the hold loop takes its second and no more. *)
Definition ex_env : Env :=
  mkEnv (fun _ => None) (fun _ => 0) (Some (mkWxStatus 70 0 0)) (fun _ => 1%Q).

(** The same, with relays answering 3, 4, 5, ... *)
Definition ex_env_faulty : Env :=
  mkEnv (fun _ => None) (fun k => Z.of_nat k + 3) (Some (mkWxStatus 70 0 0))
        (fun _ => 1%Q).

(** The same as [ex_env], with the override flag set before the tenth read. *)
Definition ex_env_override : Env :=
  mkEnv (fun k => if (k =? 9)%nat then Some true else None) (fun _ => 0)
        (Some (mkWxStatus 70 0 0)) (fun _ => 1%Q).

(** control.py -s morning, control.py -s evening,
    control.py -z frontlawn -d 1 -f, control.py -z frontlawn -d 1 -f -i *)
Definition ex_args_morning : Args := mkArgs None None (Some "morning") false false.
Definition ex_args_evening : Args := mkArgs None None (Some "evening") false false.
Definition ex_args_force : Args := mkArgs (Some "frontlawn") (Some 1) None true false.
Definition ex_args_force_init : Args := mkArgs (Some "frontlawn") (Some 1) None true true.

(** The command lines -z frontlawn -d 1 -f, the same with -i, the same
    with a duration that is no number, -z orchard -d 1 -f,
    -s morning -f, -s evening -f, -s noon -f, -i -d abc and -s dawn. *)
Definition ex_cl_force : CmdLine :=
  mkCmdLine (Some "frontlawn") (Some "1") None true false.
Definition ex_cl_dawn : CmdLine := mkCmdLine None None (Some "dawn") false false.
Definition ex_cl_evening : CmdLine := mkCmdLine None None (Some "evening") false false.

(** The sample installation with a schedule "dawn" whose first zone in
    the order of the names, "aaa", is not in the zone map. *)
Definition ex_doc_dawn : Doc :=
  set_schedules
    (<["dawn" := mkSchedule false
                   {[ "aaa" := mkZoneEntry 1; "backyard" := mkZoneEntry 1 ]}]>
       ex_schedules) ex_doc.

(** The same as [ex_env], with relays answering 21. *)
Definition ex_env_21 : Env :=
  mkEnv (fun _ => None) (fun _ => 21) (Some (mkWxStatus 70 0 0)) (fun _ => 1%Q).

(** The same as [ex_env], with turns of the hold loop that take a second
    and a half. *)
Definition ex_env_slow : Env :=
  mkEnv (fun _ => None) (fun _ => 0) (Some (mkWxStatus 70 0 0)) (fun _ => (3 # 2)%Q).

(** Rain history above the limit of [ex_wx_data]. *)
Definition ex_env_rain : Env :=
  mkEnv (fun _ => None) (fun _ => 0) (Some (mkWxStatus 70 2 0)) (fun _ => 1%Q).

(** ** Further observations *)

(** The seconds slept, in order. *)
Definition sleep_trace (t : list Event) : list Z :=
  omap (fun e => match e with Sleep s => Some s | _ => None end) t.

(** The documents written to the settings file, in order. *)
Definition write_trace (t : list Event) : list Doc :=
  omap (fun e => match e with WriteDoc d => Some d | _ => None end) t.


(** The zone the manual branch looks up: the -z argument, "null" without. *)
Definition requested_zone (args : Args) : string :=
  if truthy (arg_zone args) then default "" (arg_zone args) else "null".

(** The schedule the scheduled branch looks up. *)
Definition requested_schedule (args : Args) : string :=
  if truthy (arg_schedule args) then default "" (arg_schedule args) else "null".

(** The weather verdict of an invocation. *)
Definition weather_cancel (env : Env) (w : World) : bool :=
  (wx_flags (wx_data (file w)) (checkweather env).1).1.

Definition weather_reason (env : Env) (w : World) : string :=
  (wx_flags (wx_data (file w)) (checkweather env).1).2.


(** From this world on every read of the document sees the override flag
    set: it is set in the file and the companion process does not clear
    it. *)
Definition overridden (env : Env) (w : World) : Prop :=
  manual_override (controls (file w)) = true /\
  forall k, (reads w <= k)%nat -> ext_override env k <> Some false.

(** The four checks of the weather flags, one by one. *)
Definition history_trips (wxd : WxData) (wx_status : WxStatus) : bool :=
  history_enable wxd && Qgtb (rain_history_total wx_status) (precip wxd).

Definition forecast_trips (wxd : WxData) (wx_status : WxStatus) : bool :=
  forecast_enable wxd && Qgtb (rain_forecast wx_status) (precip wxd).

Definition temperature_trips (wxd : WxData) (wx_status : WxStatus) : bool :=
  temp_enable wxd &&
  (Qltb (temp_current wx_status) (min_temp wxd) ||
   Qgtb (temp_current wx_status) (max_temp wxd)).

Definition forecast_history_trips (wxd : WxData) (wx_status : WxStatus) : bool :=
  forecast_history_enable wxd &&
  Qgtb (py_add (rain_forecast wx_status) (rain_history_total wx_status))
       (round64 (precip wxd)).

(** The part of the document the script has no business changing: the
    settings, the weather configuration, the pin and the enabled flag of
    every zone, and the entries of every schedule. *)
Definition static (d : Doc) :
    Settings * WxData * gmap string (Z * bool) * gmap string (gmap string ZoneEntry) :=
  (settings d, wx_data d,
   (fun z => (GPIO_mapping z, enabled z)) <$> zonemap d,
   zones <$> schedules d).

(** A document of a run in progress: configuration as in [d0],
    controls.active set. *)
Definition steady (d0 d : Doc) : Prop :=
  static d = static d0 /\ active (controls d) = true.

Definition write_steady (d0 : Doc) (e : Event) : Prop :=
  match e with WriteDoc d => steady d0 d | _ => True end.

(** A computation that, started on a steady file, writes steady documents
    only, leaves a steady file, and returns values in [Q]. *)
Definition keeps {A} (d0 : Doc) (Q : A -> Prop) (m : M A) : Prop :=
  forall w, steady d0 (file w) ->
    exists evs,
      trace (world_of (m w)) = trace w ++ evs /\
      Forall (write_steady d0) evs /\
      steady d0 (file (world_of (m w))) /\
      forall a w', m w = Ok a w' -> Q a.


(** ** Properties of the hold loop and of Irrigate *)

Lemma emitted_app w w' evs : trace w' = trace w ++ evs -> emitted w w' = evs.
Proof. unfold emitted. intros ->. by rewrite drop_app_length. Qed.

Lemma same_config_refl d : same_config d d.
Proof. by destruct d as [? ? ? []]. Qed.

Lemma same_config_trans d1 d2 d3 :
  same_config d1 d2 -> same_config d2 d3 -> same_config d1 d3.
Proof. unfold same_config. intros -> ->. by destruct d1 as [? ? ? []]. Qed.

Lemma same_config_set b d : same_config d (set_manual_override b d).
Proof. by destruct d as [? ? ? []]. Qed.

Lemma same_config_zonemap d d' : same_config d d' -> zonemap d' = zonemap d.
Proof. by intros ->. Qed.

Lemma same_config_schedules d d' : same_config d d' -> schedules d' = schedules d.
Proof. by intros ->. Qed.

(** A read changes the file at most in the override flag. *)
Lemma ReadJSON_spec env w :
  let r := ReadJSON env w in
  trace r.2 = trace w ++ [ReadDoc r.1] /\ file r.2 = r.1 /\
  same_config (file w) r.1 /\ relay_calls r.2 = relay_calls w /\
  clock r.2 = clock w /\ reads r.2 = S (reads w).
Proof.
  unfold ReadJSON; cbn. repeat split.
  destruct (ext_override env (reads w)); auto using same_config_set, same_config_refl.
Qed.

(** The hold loop only polls: it reads the document and sleeps, calls no
    relay, and leaves the configuration in the file as it was. *)
Lemma hold_spec env starttime duration w :
  exists evs,
    trace (hold env starttime duration w) = trace w ++ evs /\
    Forall poll_event evs /\
    relay_calls (hold env starttime duration w) = relay_calls w /\
    same_config (file w) (file (hold env starttime duration w)).
Proof.
  funelim (hold env starttime duration w); clear Heqcall.
  - clear Heq. destruct (ReadJSON_spec env w) as (Ht & Hf & Hc & Hr & _).
    unfold CheckOverride in *. destruct (ReadJSON env w) as [d w1]; cbn in *.
    destruct (_ >? 0).
    + exists [ReadDoc d]. split_and!; [done|by repeat constructor|done|by rewrite Hf].
    + destruct H as (evs & Ht' & Hp & Hr' & Hc').
      exists (ReadDoc d :: Sleep 1 :: evs).
      rewrite Ht', Ht, <- !app_assoc. split_and!; [done|by repeat constructor|congruence|].
      rewrite Hf in Hc'. eauto using same_config_trans.
  - exists []. rewrite app_nil_r. auto using same_config_refl.
Qed.

Lemma relay_trace_poll evs : Forall poll_event evs -> relay_trace evs = [].
Proof. induction 1 as [|[] ? ? ? IH]; cbn in *; auto; done. Qed.

Lemma relay_trace_app t1 t2 : relay_trace (t1 ++ t2) = relay_trace t1 ++ relay_trace t2.
Proof. apply omap_app. Qed.

Lemma override_trace_app t1 t2 :
  override_trace (t1 ++ t2) = override_trace t1 ++ override_trace t2.
Proof. apply omap_app. Qed.

Lemma py_not_neq x : py_not x <> x.
Proof. unfold py_not. destruct (Z.eqb_spec x 0); lia. Qed.

(** What one call of Irrigate does, from the first log line to the
    returned error code. *)
Lemma Irrigate_spec env zonename duration relay_trigger w :
  let r := Irrigate env zonename duration relay_trigger w in
  exists evs d,
    trace r.2 =
      trace w ++ [WriteLog (LogTurningOn zonename duration);
                  SetRelay relay_trigger zonename] ++ evs ++
                 [WriteLog (LogTurningOff zonename);
                  SetRelay (py_not relay_trigger) zonename; ReadDoc d] /\
    Forall poll_event evs /\
    file r.2 = d /\ same_config (file w) d /\
    relay_calls r.2 = S (S (relay_calls w)) /\
    r.1 = if manual_override (controls d) then 42
          else setrelay_rc env (relay_calls w) + setrelay_rc env (S (relay_calls w)).
Proof.
  unfold Irrigate, setrelay, write_log, emit; cbn -[hold CheckOverride].
  set (w1 := mkWorld (file w) _ (S _) _ _).
  destruct (hold_spec env (clock w) duration w1) as (evs & Ht & Hp & Hr & Hc).
  unfold CheckOverride.
  match goal with |- context [ReadJSON env ?x] => set (w2 := x) end.
  destruct (ReadJSON_spec env w2) as (Ht2 & Hf2 & Hc2 & Hr2 & _).
  destruct (ReadJSON env w2) as [d w3]; cbn in *.
  exists evs, d. rewrite Ht2, Ht, Hr2, Hr. cbn.
  split_and!; auto.
  - by rewrite <- !app_assoc.
  - eauto using same_config_trans.
  - by destruct (manual_override (controls d)).
Qed.

(** C2: whatever the zone, the duration and the override flags seen,
    Irrigate returns, and the relay calls it made are the engaging call
    followed by the disengaging one (the negated trigger level, which
    differs from the trigger level); the last relay call before it
    returns is the disengaging one. *)
Theorem Irrigate_disengages env zonename duration relay_trigger w :
  relay_trace (emitted w (Irrigate env zonename duration relay_trigger w).2) =
    [(relay_trigger, zonename); (py_not relay_trigger, zonename)] /\
  last (relay_trace (trace (Irrigate env zonename duration relay_trigger w).2)) =
    Some (py_not relay_trigger, zonename) /\
  py_not relay_trigger <> relay_trigger.
Proof.
  destruct (Irrigate_spec env zonename duration relay_trigger w)
    as (evs & d & Ht & Hp & _).
  cbn zeta in Ht. rewrite (emitted_app _ _ _ Ht), Ht.
  rewrite !relay_trace_app, (relay_trace_poll _ Hp). cbn.
  split_and!; [done| |apply py_not_neq].
  change ([?a; ?b]) with ([a] ++ [b]). by rewrite app_assoc, last_snoc.
Qed.

(** C3, as the code has it: when the read of the document that follows
    the disengaging relay call sees the override flag set, Irrigate
    returns 42, whatever codes the relay calls returned; when it sees the
    flag clear, Irrigate returns the sum of the codes of its two relay
    calls.  So 42 tells an override from the relay codes exactly when the
    two codes do not add up to 42. *)
Theorem Irrigate_override_sentinel env zonename duration relay_trigger w t d :
  trace (Irrigate env zonename duration relay_trigger w).2 =
    t ++ [SetRelay (py_not relay_trigger) zonename; ReadDoc d] ->
  (manual_override (controls d) = true ->
     (Irrigate env zonename duration relay_trigger w).1 = 42) /\
  (manual_override (controls d) = false ->
     (Irrigate env zonename duration relay_trigger w).1 =
       setrelay_rc env (relay_calls w) + setrelay_rc env (S (relay_calls w))) /\
  (setrelay_rc env (relay_calls w) + setrelay_rc env (S (relay_calls w)) <> 42 ->
     ((Irrigate env zonename duration relay_trigger w).1 = 42 <->
      manual_override (controls d) = true)).
Proof.
  destruct (Irrigate_spec env zonename duration relay_trigger w)
    as (evs & d' & Ht & _ & _ & _ & _ & Hc).
  cbn zeta in Ht, Hc. rewrite Ht, Hc. intros Heq.
  assert (d' = d) as ->.
  { apply (f_equal last) in Heq.
    rewrite !app_assoc in Heq.
    change ([?a; ?b; ReadDoc d']) with ([a; b] ++ [ReadDoc d']) in Heq.
    change ([?a; ReadDoc d]) with ([a] ++ [ReadDoc d]) in Heq.
    rewrite !app_assoc, !last_snoc in Heq. congruence. }
  split_and!.
  - by intros ->.
  - by intros ->.
  - intros Hne. destruct (manual_override (controls d)); [done|].
    split; [by intros ?|done].
Qed.

Lemma Irrigate_override_sentinel_witness :
  (Irrigate ex_env_override "frontlawn" 1 0 ex_world).1 = 42.
Proof.
  apply (proj1 (Irrigate_override_sentinel ex_env_override "frontlawn" 1 0 ex_world
                  (take 22 (trace (Irrigate ex_env_override "frontlawn" 1 0 ex_world).2))
                  (file (Irrigate ex_env_override "frontlawn" 1 0 ex_world).2)
                  ltac:(vm_compute; reflexivity))).
  vm_compute. reflexivity.
Defined.

(** C3 as stated fails: 42 is not set apart from the codes of the relay
    calls.  With relays that answer 21 and a flag that no read of the run
    sees set, Irrigate returns 42 all the same. *)
Lemma override_sentinel_not_distinct :
  Forall (fun b => b = false)
    (override_trace (emitted ex_world (Irrigate ex_env_21 "frontlawn" 1 0 ex_world).2)) /\
  setrelay_rc ex_env_21 0 = 21 /\ setrelay_rc ex_env_21 1 = 21 /\
  (Irrigate ex_env_21 "frontlawn" 1 0 ex_world).1 = 42.
Proof. split_and!; [vm_compute; repeat constructor|done..|vm_compute; reflexivity]. Qed.

(** C4: when no read of the document during the run sees the override
    flag set, Irrigate returns the code of the engaging relay call plus
    the code of the disengaging one; that is 0 when the relay capability
    always answers 0. *)
Theorem Irrigate_errorcode_sum env zonename duration relay_trigger w :
  Forall (fun b => b = false)
    (override_trace (emitted w (Irrigate env zonename duration relay_trigger w).2)) ->
  (Irrigate env zonename duration relay_trigger w).1 =
    setrelay_rc env (relay_calls w) + setrelay_rc env (S (relay_calls w)) /\
  ((forall k, setrelay_rc env k = 0) ->
   (Irrigate env zonename duration relay_trigger w).1 = 0).
Proof.
  destruct (Irrigate_spec env zonename duration relay_trigger w)
    as (evs & d & Ht & _ & _ & _ & _ & Hc).
  cbn zeta in Ht, Hc. rewrite (emitted_app _ _ _ Ht), Hc.
  rewrite !override_trace_app. cbn.
  intros Hall. repeat apply Forall_app in Hall as [_ Hall].
  inversion Hall as [|? ? Hov _]; subst. rewrite Hov.
  split; [done|]. intros H0. by rewrite !H0.
Qed.

Lemma Irrigate_errorcode_sum_witness :
  (Irrigate ex_env_faulty "frontlawn" 1 0 ex_world).1 = 3 + 4.
Proof.
  apply (proj1 (Irrigate_errorcode_sum ex_env_faulty "frontlawn" 1 0 ex_world
                  ltac:(vm_compute; repeat constructor))).
Defined.

(** ** The weather flags *)

Lemma Qgtb_eq a b : (a == b)%Q -> Qgtb a b = false.
Proof.
  intros H. unfold Qgtb. apply negb_false_iff, Qle_bool_iff.
  rewrite H. apply Qle_refl.
Qed.

Lemma Qgtb_lt a b : (b < a)%Q -> Qgtb a b = true.
Proof.
  intros H. unfold Qgtb. apply negb_true_iff, not_true_is_false.
  rewrite Qle_bool_iff. by apply Qlt_not_le.
Qed.

(** C5, as the code has it: with the history check enabled, a rain
    history equal to the limit does not trip the history check, so the
    verdict and the reasons are those of the other three checks and the
    history tag is not among the reasons; a rain history above the limit
    cancels, and the reasons start with the history tag. *)
Theorem wx_history_threshold wxd wx_status :
  history_enable wxd = true ->
  ((rain_history_total wx_status == precip wxd)%Q ->
     wx_flags wxd wx_status = wx_flags (with_history_enable false wxd) wx_status /\
     mentions tag_history (wx_flags wxd wx_status).2 = false) /\
  ((precip wxd < rain_history_total wx_status)%Q ->
     (wx_flags wxd wx_status).1 = true /\
     mentions tag_history (wx_flags wxd wx_status).2 = true /\
     exists rest, (wx_flags wxd wx_status).2 = tag_history +:+ rest).
Proof.
  intros Hen. unfold wx_flags. rewrite Hen. cbn [with_history_enable history_enable
    forecast_enable temp_enable forecast_history_enable precip min_temp max_temp andb].
  split; intros H.
  - rewrite (Qgtb_eq _ _ H).
    split; [done|].
    destruct (_ && Qgtb (rain_forecast _) _), (temp_enable wxd && _),
      (forecast_history_enable wxd && _); by vm_compute.
  - rewrite (Qgtb_lt _ _ H).
    destruct (_ && Qgtb (rain_forecast _) _), (temp_enable wxd && _),
      (forecast_history_enable wxd && _);
      (split_and!; [done|by vm_compute|eexists; reflexivity]).
Qed.

Lemma wx_history_threshold_witness :
  mentions tag_history (wx_flags ex_wx_data (mkWxStatus 70 (1 # 2) 0)).2 = false /\
  (wx_flags ex_wx_data (mkWxStatus 70 2 0)).1 = true.
Proof.
  split.
  - apply (proj1 (wx_history_threshold ex_wx_data (mkWxStatus 70 (1 # 2) 0) eq_refl)).
    reflexivity.
  - apply (proj2 (wx_history_threshold ex_wx_data (mkWxStatus 70 2 0) eq_refl)).
    reflexivity.
Defined.

(** C5 as stated fails: with the rain history equal to the limit the
    gate still cancels when another check trips, here the temperature. *)
Lemma wx_history_equal_still_cancels :
  ~ (forall wxd wx_status,
       history_enable wxd = true ->
       (rain_history_total wx_status == precip wxd)%Q ->
       (wx_flags wxd wx_status).1 = false).
Proof.
  intros H.
  specialize (H ex_wx_data (mkWxStatus 30 (1 # 2) 0) eq_refl).
  discriminate H. reflexivity.
Qed.

(** ** Sequencing *)

Lemma bind_eq {A B} (m : M A) (k : A -> M B) w :
  (m ≫= k) w = match m w with Ok a w' => k a w' | Raise e w' => Raise e w' end.
Proof. reflexivity. Qed.

Lemma bind_lift {A B} (f : World -> A * World) (k : A -> M B) w :
  (lift f ≫= k) w = k (f w).1 (f w).2.
Proof. unfold mbind, M_bind, lift. by destruct (f w). Qed.

Lemma bind_getitem_Some {V B} (m : gmap string V) key v (k : V -> M B) w :
  m !! key = Some v -> (getitem m key ≫= k) w = k v w.
Proof. unfold mbind, M_bind, getitem. by intros ->. Qed.

Lemma bind_getitem_None {V B} (m : gmap string V) key (k : V -> M B) w :
  m !! key = None -> (getitem m key ≫= k) w = Raise (KeyError key) w.
Proof. unfold mbind, M_bind, getitem. by intros ->. Qed.

Lemma emits_mret {A} P (a : A) : emits P (mret a).
Proof. intros w. exists []. by rewrite app_nil_r. Qed.

Lemma emits_bind {A B} P (m : M A) (k : A -> M B) :
  emits P m -> (forall a, emits P (k a)) -> emits P (m ≫= k).
Proof.
  intros Hm Hk w. rewrite bind_eq.
  destruct (Hm w) as (evs1 & Ht1 & Hp1). destruct (m w) as [a w1|e w1]; cbn in *.
  - destruct (Hk a w1) as (evs2 & Ht2 & Hp2).
    exists (evs1 ++ evs2). rewrite Ht2, Ht1, app_assoc. split; [done|].
    by apply Forall_app.
  - by exists evs1.
Qed.

Lemma emits_getitem {V} P (m : gmap string V) key : emits P (getitem m key).
Proof.
  intros w. exists []. rewrite app_nil_r. unfold getitem.
  by destruct (m !! key).
Qed.

Lemma emits_mono {A} (P Q : Event -> Prop) (m : M A) :
  (forall e, P e -> Q e) -> emits P m -> emits Q m.
Proof.
  intros HPQ Hm w. destruct (Hm w) as (evs & Ht & Hp).
  exists evs. split; [done|]. eapply Forall_impl; eauto.
Qed.

Lemma emits_write_log (P : Event -> Prop) l :
  P (WriteLog l) -> emits P (lift (write_log l)).
Proof. intros Hl w. exists [WriteLog l]. cbn. by repeat constructor. Qed.

Lemma emits_WriteJSON (P : Event -> Prop) d :
  P (WriteDoc d) -> emits P (lift (WriteJSON d)).
Proof. intros Hl w. exists [WriteDoc d]. cbn. by repeat constructor. Qed.

Lemma emits_ReadJSON (P : Event -> Prop) env :
  (forall d, P (ReadDoc d)) -> emits P (lift (ReadJSON env)).
Proof. intros Hl w. eexists [ReadDoc _]. cbn. by repeat constructor. Qed.

Lemma poll_run_event e : poll_event e -> run_event e.
Proof. by destruct e. Qed.

Lemma emits_Irrigate env zonename duration relay_trigger :
  emits run_event (lift (Irrigate env zonename duration relay_trigger)).
Proof.
  intros w. unfold lift.
  destruct (Irrigate_spec env zonename duration relay_trigger w)
    as (evs & d & Ht & Hp & _).
  destruct (Irrigate _ _ _ _ w) as [ec w']; cbn in *.
  eexists. split; [exact Ht|].
  do 2 (constructor; [done|]). apply Forall_app. split; [|by repeat constructor].
  eapply Forall_impl; eauto using poll_run_event.
Qed.

Lemma emits_zone_loop env relay_trigger items :
  forall d errorcode, emits run_event (zone_loop env relay_trigger items d errorcode).
Proof.
  induction items as [|[k e] rest IH]; intros d errorcode; cbn [zone_loop].
  - apply emits_mret.
  - apply emits_bind; [apply emits_getitem|]. intros z.
    destruct (_ && _); [|apply IH].
    apply emits_bind; [by apply emits_WriteJSON|]. intros _.
    apply emits_bind; [apply emits_Irrigate|]. intros ec.
    apply emits_bind; [by apply emits_ReadJSON|]. intros d'.
    apply emits_bind; [apply emits_getitem|]. intros z'.
    apply emits_bind; [by apply emits_WriteJSON|]. intros _. apply IH.
Qed.

Lemma emits_schedule_run_branch env relay_trigger s d errorcode :
  emits run_event (schedule_run_branch env relay_trigger s d errorcode).
Proof.
  unfold schedule_run_branch.
  apply emits_bind; [by apply emits_write_log|]. intros _.
  destruct (schedules d !! s) as [sched|].
  - apply emits_bind; [by apply emits_write_log|]. intros _.
    apply emits_bind; [by apply emits_WriteJSON|]. intros _.
    apply emits_bind; [apply emits_zone_loop|]. intros [d' ec].
    apply emits_bind; [apply emits_getitem|]. intros sched'.
    apply emits_bind; [by apply emits_WriteJSON|]. intros _. apply emits_mret.
  - apply emits_bind; [by apply emits_write_log|]. intros _. apply emits_mret.
Qed.

Lemma emits_manual_run_branch env relay_trigger zone duration d :
  emits run_event (manual_run_branch env relay_trigger zone duration d).
Proof.
  unfold manual_run_branch.
  apply emits_bind; [by apply emits_write_log|]. intros _.
  destruct (zonemap d !! zone) as [z|].
  - apply emits_bind; [by apply emits_WriteJSON|]. intros _.
    apply emits_bind; [apply emits_Irrigate|]. intros ec.
    apply emits_bind; [apply emits_getitem|]. intros z'.
    apply emits_bind; [by apply emits_WriteJSON|]. intros _. apply emits_mret.
  - apply emits_bind; [by apply emits_write_log|]. intros _. apply emits_mret.
Qed.

(** The branches of the tree as the four flags select them. *)
Lemma select_branch_cases init schedule_run wx_cancel force :
  select_branch init schedule_run wx_cancel force =
    if init then BInit
    else if negb wx_cancel || force
         then (if schedule_run then BSchedule else BManual)
         else BWeatherCancelled.
Proof. by destruct init, schedule_run, wx_cancel, force. Qed.

Lemma emits_decision_tree env v :
  emits (tree_event (v_force v)) (decision_tree env v).
Proof.
  unfold decision_tree. rewrite select_branch_cases.
  destruct (v_init v).
  { apply emits_bind; [apply emits_write_log; unfold tree_event; auto|].
    intros _. apply emits_mret. }
  destruct (v_wx_cancel v), (v_force v) eqn:Hf; cbn;
    try (destruct (v_schedule_run v);
         (eapply emits_mono;
          [|apply emits_schedule_run_branch || apply emits_manual_run_branch];
          unfold tree_event; by auto)).
  apply emits_bind; [apply emits_write_log; unfold tree_event; eauto|].
  intros _. apply emits_mret.
Qed.

(** ** The script as a whole *)

Lemma bind_mret {A B} (a : A) (k : A -> M B) w : (mret a ≫= k) w = k a w.
Proof. reflexivity. Qed.

(** The setup phase always completes. *)
Lemma setup_spec env args w :
  exists v w1 pre,
    setup env args w = Ok v w1 /\
    trace w1 = trace w ++ pre /\ Forall setup_event pre /\
    file w1 = v_json_data_dict v /\
    relay_calls w1 = relay_calls w /\
    same_config (set_active true (file w)) (v_json_data_dict v) /\
    v_relay_trigger v = relay_trigger (settings (file w)) /\
    v_force v = arg_force args /\
    v_init v = arg_init args /\
    v_schedule_run v = truthy (arg_schedule args) /\
    v_schedule_selected v =
      (if truthy (arg_schedule args) then default "" (arg_schedule args) else "null") /\
    v_zone v = (if truthy (arg_zone args) then default "" (arg_zone args) else "null") /\
    v_duration v = default 0 (arg_duration args) /\
    v_errorcode v = (checkweather env).2 /\
    (v_wx_cancel v, v_wx_cancel_reason v) =
      wx_flags (wx_data (file w)) (checkweather env).1 /\
    (arg_force args = true -> WriteLog LogForce ∈ pre).
Proof.
  unfold setup, setup_with. rewrite !bind_lift, bind_mret. cbn [fst snd].
  destruct (ReadJSON_spec env (write_log LogStarting w).2) as (Ht & Hf & Hc & Hr & _).
  cbn zeta in *.
  destruct (ReadJSON env _) as [d0 w0]. cbn [fst snd] in *.
  assert (Hd0 : same_config (set_active true (file w)) (set_active true d0)).
  { change (file (write_log LogStarting w).2) with (file w) in Hc.
    rewrite Hc. by destruct (file w) as [? ? ? []]. }
  assert (Hwx : wx_data (set_active true d0) = wx_data (file w)) by (by rewrite Hd0).
  assert (Hst : settings d0 = settings (file w)).
  { change (file (write_log LogStarting w).2) with (file w) in Hc. by rewrite Hc. }
  rewrite Hwx, Hst.
  destruct (negb _); [|destruct (_ || _)]; rewrite ?bind_lift, ?bind_mret;
    (destruct (arg_force args); rewrite ?bind_lift, ?bind_mret;
     eexists _, _, _; (split; [reflexivity|]); cbn; rewrite Ht; cbn;
     rewrite <- ?app_assoc; (split; [reflexivity|]);
     split_and!; try done; try (by repeat constructor);
     try (by destruct (wx_flags _ _));
     intros _; set_solver).
Qed.

(** The closing phase: one cleanup, two log lines, the final write. *)
Lemma finish_spec d errorcode w :
  exists w',
    finish (d, errorcode) w = Ok errorcode w' /\
    trace w' = trace w ++ [Cleanup; WriteLog (LogExiting errorcode);
                           WriteLog LogEnded; WriteDoc (file w')] /\
    file w' = set_manual_override false (set_active false d).
Proof.
  unfold finish. rewrite !bind_lift. eexists. split; [reflexivity|].
  cbn. by rewrite <- !app_assoc.
Qed.

(** The shape of every run of the script: the events of the setup, then
    those of the tree, and, unless the tree raised, the closing phase. *)
Lemma main_spec env args w :
  exists pre body,
    Forall setup_event pre /\ Forall (tree_event (arg_force args)) body /\
    (arg_force args = true -> WriteLog LogForce ∈ pre) /\
    match main env args w with
    | Ok errorcode w' =>
        trace w' = trace w ++ pre ++ body ++
                   [Cleanup; WriteLog (LogExiting errorcode);
                    WriteLog LogEnded; WriteDoc (file w')] /\
        active (controls (file w')) = false /\
        manual_override (controls (file w')) = false
    | Raise e w' => trace w' = trace w ++ pre ++ body
    end.
Proof.
  destruct (setup_spec env args w)
    as (v & w1 & pre & Hs & Ht & Hp & _ & _ & _ & _ & Hf & _ & _ & _ & _ & _ & _ & _ & HF).
  destruct (emits_decision_tree env v w1) as (body & Htb & Hb).
  exists pre, body. rewrite Hf in Hb. split_and!; [done..|].
  unfold main. rewrite bind_eq, Hs, bind_eq.
  destruct (decision_tree env v w1) as [[d ec] w2|e w2]; cbn in Htb.
  - destruct (finish_spec d ec w2) as (w' & -> & Ht' & Hf').
    rewrite Ht', Htb, Ht, Hf', <- !app_assoc. done.
  - by rewrite Htb, Ht, <- !app_assoc.
Qed.

(** Every event of a run belongs to one of the three phases. *)
Lemma main_emitted env args w e :
  e ∈ emitted w (world_of (main env args w)) ->
  setup_event e \/ tree_event (arg_force args) e \/ finish_event e.
Proof.
  destruct (main_spec env args w) as (pre & body & Hp & Hb & _ & Hm).
  rewrite Forall_forall in Hp, Hb.
  destruct (main env args w) as [ec w'|ex w']; cbn [world_of].
  - destruct Hm as (Ht & _). rewrite (emitted_app _ _ _ Ht).
    rewrite !elem_of_app. intros [?|[?|Hfin]]; auto.
    right; right. set_unfold. by destruct Hfin as [->|[->|[->|[->|[]]]]].
  - rewrite (emitted_app _ _ _ Hm), !elem_of_app. intros [?|?]; auto.
Qed.

(** Events other than Cleanup contribute no cleanup call. *)
Lemma cleanup_trace_none (P : Event -> Prop) evs :
  (forall e, P e -> e <> Cleanup) -> Forall P evs -> cleanup_trace evs = [].
Proof.
  intros HP. induction 1 as [|e ? He ? IH]; [done|].
  cbn. destruct e; try done. by destruct (HP _ He).
Qed.

Lemma setup_event_not_cleanup e : setup_event e -> e <> Cleanup.
Proof. by intros He ->. Qed.

Lemma tree_event_not_cleanup force e : tree_event force e -> e <> Cleanup.
Proof. intros [He|[He|(_ & r & He)]] ->; done. Qed.

(** A run that exits normally called cleanup once, after everything
    else but the last log lines and the final write, and left both
    control flags false in the file. *)
Lemma main_cleanup_once env args w errorcode w' :
  main env args w = Ok errorcode w' ->
  cleanup_trace (emitted w w') = [()] /\
  last (trace w') = Some (WriteDoc (file w')) /\
  active (controls (file w')) = false /\
  manual_override (controls (file w')) = false.
Proof.
  intros Hmain.
  destruct (main_spec env args w) as (pre & body & Hp & Hb & _ & Hm).
  rewrite Hmain in Hm. destruct Hm as (Ht & Ha & Ho).
  split_and!; [|rewrite Ht|done..].
  2:{ change ([Cleanup; ?a; ?b; ?c]) with ([Cleanup; a; b] ++ [c]).
      by rewrite !app_assoc, last_snoc. }
  rewrite (emitted_app _ _ _ Ht). unfold cleanup_trace. rewrite !omap_app.
  fold (cleanup_trace pre) (cleanup_trace body).
  rewrite (cleanup_trace_none _ _ setup_event_not_cleanup Hp).
  by rewrite (cleanup_trace_none _ _ (tree_event_not_cleanup _) Hb).
Qed.

(** C1 fails on a schedule that names a zone missing from the zone map:
    the lookup in the zone loop raises KeyError after the first zone has
    run, the script ends there, cleanup is never called and the file is
    left with controls.active set. *)
Theorem main_stale_schedule_skips_cleanup :
  outcome (main ex_env ex_args_evening ex_world) = inr (KeyError "sidebed") /\
  relay_trace (trace (world_of (main ex_env ex_args_evening ex_world))) =
    [(0, "backyard"); (1, "backyard")] /\
  cleanup_trace (trace (world_of (main ex_env ex_args_evening ex_world))) = [] /\
  active (controls (file (world_of (main ex_env ex_args_evening ex_world)))) = true.
Proof. split_and!; vm_compute; reflexivity. Qed.

(** With the force flag set the log never holds the cancellation line,
    the only line that carries the reasons. *)
Lemma main_force_no_reasons env args w reason :
  arg_force args = true ->
  WriteLog (LogWxCancelled reason) ∉ emitted w (world_of (main env args w)).
Proof.
  intros Hforce Hin. apply main_emitted in Hin. rewrite Hforce in Hin.
  destruct Hin as [[]|[[[]|[?|([=] & _)]]|[]]]. done.
Qed.

(** C10: no combination of the four flags selects the catch-all branch,
    and no run of the script logs "No Action.". *)
Theorem no_action_unreachable :
  (forall init schedule_run wx_cancel force,
     select_branch init schedule_run wx_cancel force <> BNoAction) /\
  (forall env args w,
     WriteLog LogNoAction ∉ emitted w (world_of (main env args w))).
Proof.
  split.
  - by intros [] [] [] [].
  - intros env args w Hin. apply main_emitted in Hin.
    destruct Hin as [[]|[[[]|[?|(_ & ? & ?)]]|[]]]; done.
Qed.
(** ** The zone loop of a scheduled run *)

Lemma zone_enabled_fmap d k :
  zone_enabled d k = default false ((enabled <$> zonemap d) !! k).
Proof. unfold zone_enabled. rewrite lookup_fmap. by destruct (zonemap d !! k). Qed.

Lemma included_ext d d' items :
  enabled <$> zonemap d' = enabled <$> zonemap d ->
  included d' items = included d items.
Proof.
  intros H. unfold included. apply list_filter_iff. intros it.
  by rewrite !zone_enabled_fmap, H.
Qed.

Lemma is_Some_zonemap_ext d d' k :
  enabled <$> zonemap d' = enabled <$> zonemap d ->
  is_Some (zonemap d !! k) -> is_Some (zonemap d' !! k).
Proof.
  intros H Hs. apply (fmap_is_Some enabled). rewrite <- lookup_fmap, H, lookup_fmap.
  by apply fmap_is_Some.
Qed.

(** An entry whose zone is disabled or whose duration is 0 is passed over:
    nothing is written, no relay is called, the errorcode is kept. *)
Lemma zone_loop_skip env relay_trigger k e rest d errorcode w z :
  zonemap d !! k = Some z ->
  ~ (enabled z = true /\ duration e <> 0) ->
  zone_loop env relay_trigger ((k, e) :: rest) d errorcode w =
  zone_loop env relay_trigger rest d errorcode w.
Proof.
  intros Hz Hn. cbn [zone_loop]. rewrite (bind_getitem_Some _ _ _ _ _ Hz).
  destruct (bool_decide_reflect (enabled z = true)) as [He|He]; [|done].
  destruct (Z.eqb_spec (duration e) 0) as [Hd|Hd]; [done|].
  by destruct Hn.
Qed.

(** An entry whose zone is enabled and whose duration is not 0: the zone
    is marked active, Irrigate runs it, the document is read again, the
    zone is marked inactive, and the loop goes on with the errorcode of
    this Irrigate call. *)
Lemma zone_loop_run_one env relay_trigger k e rest d errorcode w z :
  file w = d ->
  zonemap d !! k = Some z ->
  enabled z = true -> duration e <> 0 ->
  exists d' w' evs,
    zone_loop env relay_trigger ((k, e) :: rest) d errorcode w =
      zone_loop env relay_trigger rest d'
        (Irrigate env k (duration e) relay_trigger
           (WriteJSON (mark_zone k true z d) w).2).1
        w' /\
    file w' = d' /\
    enabled <$> zonemap d' = enabled <$> zonemap d /\
    schedules d' = schedules d /\
    trace w' = trace w ++ evs /\
    relay_trace evs = onoff relay_trigger k.
Proof.
  intros Hf Hz He Hd. cbn [zone_loop]. rewrite (bind_getitem_Some _ _ _ _ _ Hz).
  rewrite He. destruct (Z.eqb_spec (duration e) 0) as [|_]; [done|]. cbn [andb negb bool_decide].
  rewrite bool_decide_eq_true_2 by done. cbn [andb].
  rewrite !bind_lift.
  set (d1 := mark_zone k true z d).
  set (w1 := (WriteJSON d1 w).2).
  destruct (Irrigate_spec env k (duration e) relay_trigger w1)
    as (ievs & dI & HtI & HpI & HfI & HcI & _).
  cbn zeta in HtI, HfI.
  set (rI := Irrigate env k (duration e) relay_trigger w1) in *.
  destruct (ReadJSON_spec env rI.2) as (Ht2 & Hf2 & Hc2 & _).
  cbn zeta in Ht2, Hf2, Hc2.
  set (r2 := ReadJSON env rI.2) in *.
  assert (Hc12 : same_config d1 r2.1).
  { rewrite HfI in Hc2. eauto using same_config_trans. }
  pose proof (same_config_zonemap _ _ Hc12) as Hzm12.
  pose proof (same_config_schedules _ _ Hc12) as Hsc12.
  clearbody r2 rI.
  assert (Hz2 : zonemap r2.1 !! k = Some (with_zone_active true z)).
  { rewrite Hzm12. cbn. apply lookup_insert_eq. }
  rewrite (bind_getitem_Some _ _ _ _ _ Hz2), bind_lift.
  eexists _, _, _. split; [reflexivity|]. cbn [fst snd].
  split_and!.
  - reflexivity.
  - unfold mark_zone at 1. cbn. rewrite Hzm12. cbn.
    rewrite insert_insert_eq, fmap_insert. cbn. apply insert_id.
    by rewrite lookup_fmap, Hz.
  - cbn. by rewrite Hsc12.
  - cbn. rewrite Ht2, HtI. cbn. rewrite <- !app_assoc. reflexivity.
  - rewrite !relay_trace_app. cbn. rewrite !relay_trace_app, (relay_trace_poll _ HpI).
    reflexivity.
Qed.

(** The loop over entries whose zones are all in the zone map returns;
    its relay calls are the engage and disengage calls of the included
    entries, in the order of the list. *)
Lemma zone_loop_run env relay_trigger items :
  forall d errorcode w,
    file w = d ->
    (forall it, it ∈ items -> is_Some (zonemap d !! it.1)) ->
    exists d' errorcode' w' evs,
      zone_loop env relay_trigger items d errorcode w = Ok (d', errorcode') w' /\
      file w' = d' /\
      enabled <$> zonemap d' = enabled <$> zonemap d /\
      schedules d' = schedules d /\
      trace w' = trace w ++ evs /\
      relay_trace evs = (included d items).*1 ≫= onoff relay_trigger /\
      (included d items = [] -> d' = d /\ errorcode' = errorcode /\ w' = w).
Proof.
  induction items as [|[k e] rest IH]; intros d errorcode w Hf Hin.
  - exists d, errorcode, w, []. rewrite app_nil_r. by split_and!.
  - destruct (Hin (k, e)) as [z Hz]; [set_solver|]. cbn in Hz.
    assert (Hen : zone_enabled d k = enabled z) by (unfold zone_enabled; by rewrite Hz).
    destruct (decide (enabled z = true /\ duration e <> 0)) as [[He Hd]|Hn].
    + destruct (zone_loop_run_one env relay_trigger k e rest d errorcode w z)
        as (d1 & w1 & evs1 & -> & Hf1 & Hen1 & Hs1 & Ht1 & Hr1); [done..|].
      destruct (IH d1 (Irrigate env k (duration e) relay_trigger
                         (WriteJSON (mark_zone k true z d) w).2).1 w1)
        as (d' & ec' & w' & evs & -> & Hf' & Hen' & Hs' & Ht' & Hr' & _); [done|..].
      { intros it Hit. apply (is_Some_zonemap_ext d d1); [done|]. apply Hin. set_solver. }
      exists d', ec', w', (evs1 ++ evs). split_and!; [done..|congruence|congruence| | |].
      * by rewrite Ht', Ht1, app_assoc.
      * rewrite relay_trace_app, Hr1, Hr', (included_ext _ _ _ Hen1).
        unfold included at 2. rewrite filter_cons_True by (cbn; by rewrite Hen).
        by rewrite fmap_cons, bind_cons.
      * unfold included. rewrite filter_cons_True by (cbn; by rewrite Hen). done.
    + rewrite (zone_loop_skip _ _ _ _ _ _ _ _ _ Hz Hn).
      destruct (IH d errorcode w) as (d' & ec' & w' & evs & -> & Hrest); [done|set_solver|].
      exists d', ec', w', evs.
      unfold included. rewrite filter_cons_False by (cbn; by rewrite Hen).
      split; [done|]. exact Hrest.
Qed.

(** The loop over a list in two parts is the loop over the first part
    followed by the loop over the second. *)
Lemma zone_loop_app env relay_trigger l1 l2 :
  forall d errorcode w,
    zone_loop env relay_trigger (l1 ++ l2) d errorcode w =
    match zone_loop env relay_trigger l1 d errorcode w with
    | Ok (d1, errorcode1) w1 => zone_loop env relay_trigger l2 d1 errorcode1 w1
    | Raise ex w1 => Raise ex w1
    end.
Proof.
  induction l1 as [|[k e] rest IH]; intros d errorcode w; [done|].
  cbn [app zone_loop].
  destruct (zonemap d !! k) as [z|] eqn:Hz;
    [rewrite !(bind_getitem_Some _ _ _ _ _ Hz)|by rewrite !(bind_getitem_None _ _ _ _ Hz)].
  destruct (_ && _); [|apply IH].
  rewrite !bind_lift.
  match goal with |- context [getitem ?m k] => destruct (m !! k) as [z'|] eqn:Hz' end;
    [rewrite !(bind_getitem_Some _ _ _ _ _ Hz')|by rewrite !(bind_getitem_None _ _ _ _ Hz')].
  rewrite !bind_lift. apply IH.
Qed.

(** ** The order of a scheduled run *)

Global Instance item_le_trans {V} : Transitive (@item_le V).
Proof. intros x y z. unfold item_le. apply transitivity. Qed.

Global Instance item_le_total {V} : Total (@item_le V).
Proof. intros x y. unfold item_le. apply total, _. Qed.

Lemma StronglySorted_sublist {A} (R : relation A) l1 l2 :
  l1 `sublist_of` l2 -> StronglySorted R l2 -> StronglySorted R l1.
Proof.
  induction 1 as [|x l1 l2 Hs IH|x l1 l2 Hs IH]; intros Hs2; [done|..].
  - apply StronglySorted_inv in Hs2 as [Hs2 Hall]. constructor; [auto|].
    rewrite Forall_forall in Hall |- *. eauto using elem_of_sublist.
  - apply StronglySorted_inv in Hs2 as [Hs2 _]. auto.
Qed.

(** sorted(d.items()) lists each key of the dict once, with its value,
    in ascending order of the keys. *)
Lemma sorted_items_spec {V} (m : gmap string V) :
  StronglySorted item_le (sorted_items m) /\
  NoDup (sorted_items m).*1 /\
  (forall k v, (k, v) ∈ sorted_items m <-> m !! k = Some v).
Proof.
  unfold sorted_items. split_and!.
  - apply StronglySorted_merge_sort; apply _.
  - rewrite merge_sort_Permutation. apply NoDup_fst_map_to_list.
  - intros k v. rewrite merge_sort_Permutation. apply elem_of_map_to_list.
Qed.

Lemma scheduled_zones_sublist d sched :
  scheduled_zones d sched `sublist_of` (sorted_items (zones sched)).*1.
Proof. unfold scheduled_zones, included. apply fmap_sublist, sublist_filter. Qed.

(** The zones of a run come in ascending order, each once, and are
    those of the schedule that are enabled in the zone map and have
    a duration other than 0. *)
Lemma scheduled_zones_spec d sched :
  StronglySorted String.le (scheduled_zones d sched) /\
  NoDup (scheduled_zones d sched) /\
  (forall k, k ∈ scheduled_zones d sched <->
     exists z e, zonemap d !! k = Some z /\ enabled z = true /\
                 zones sched !! k = Some e /\ duration e <> 0).
Proof.
  destruct (sorted_items_spec (zones sched)) as (Hs & Hn & Hin).
  split_and!.
  - eapply StronglySorted_sublist; [apply scheduled_zones_sublist|].
    eapply StronglySorted_fmap; [|exact Hs]. done.
  - eapply sublist_NoDup; [exact Hn|apply scheduled_zones_sublist].
  - intros k. unfold scheduled_zones, included.
    rewrite list_elem_of_fmap. split.
    + intros ([k' e] & -> & Hit). apply list_elem_of_filter in Hit as [[Hen Hd] Hit].
      cbn in *. apply Hin in Hit. unfold zone_enabled in Hen.
      destruct (zonemap d !! k') as [z|]; [|done]. by exists z, e.
    + intros (z & e & Hz & Hen & He & Hd). exists (k, e). split; [done|].
      apply list_elem_of_filter. split; [|by apply Hin].
      cbn. unfold zone_enabled. by rewrite Hz.
Qed.

(** ** The scheduled-run branch *)

Lemma items_in_zonemap d sched :
  dom (zones sched) ⊆ dom (zonemap d) ->
  forall it, it ∈ sorted_items (zones sched) -> is_Some (zonemap d !! it.1).
Proof.
  intros Hdom [k e] Hin. apply sorted_items_spec in Hin.
  apply elem_of_dom, Hdom, elem_of_dom. by exists e.
Qed.

(** A run of an existing schedule whose zones are all in the zone map:
    two log lines, the schedule marked active, the zone loop, the
    schedule marked inactive. *)
Lemma schedule_run_spec env relay_trigger s d errorcode w sched :
  schedules d !! s = Some sched ->
  dom (zones sched) ⊆ dom (zonemap d) ->
  exists d1 errorcode1 w1 sched1 evs,
    zone_loop env relay_trigger (sorted_items (zones sched))
      (mark_schedule s true sched d) errorcode
      (WriteJSON (mark_schedule s true sched d)
         (write_log (LogScheduleFound s) (write_log (LogScheduleSelected s) w).2).2).2
      = Ok (d1, errorcode1) w1 /\
    schedules d1 !! s = Some sched1 /\
    schedule_run_branch env relay_trigger s d errorcode w =
      Ok (mark_schedule s false sched1 d1, errorcode1)
         (WriteJSON (mark_schedule s false sched1 d1) w1).2 /\
    trace w1 = trace w ++ [WriteLog (LogScheduleSelected s);
                           WriteLog (LogScheduleFound s);
                           WriteDoc (mark_schedule s true sched d)] ++ evs /\
    relay_trace evs = scheduled_zones d sched ≫= onoff relay_trigger /\
    (scheduled_zones d sched = [] -> errorcode1 = errorcode).
Proof.
  intros Hs Hdom.
  set (d0 := mark_schedule s true sched d).
  set (w0 := (WriteJSON d0 _).2).
  destruct (zone_loop_run env relay_trigger (sorted_items (zones sched)) d0 errorcode w0)
    as (d1 & ec1 & w1 & evs & Hloop & Hf1 & Hen1 & Hs1 & Ht1 & Hr1 & Hnil);
    [done|by apply items_in_zonemap|].
  assert (Hs1' : schedules d1 !! s = Some (with_start_time_active true sched)).
  { rewrite Hs1. cbn. apply lookup_insert_eq. }
  exists d1, ec1, w1, (with_start_time_active true sched), evs.
  split_and!; [done..| | | |].
  - unfold schedule_run_branch. rewrite bind_lift, Hs, !bind_lift.
    fold d0. fold w0. rewrite bind_eq, Hloop.
    by rewrite (bind_getitem_Some _ _ _ _ _ Hs1'), bind_lift.
  - rewrite Ht1. cbn. by rewrite <- !app_assoc.
  - exact Hr1.
  - intros Hz. apply Hnil. unfold scheduled_zones in Hz.
    by apply fmap_nil_inv in Hz.
Qed.

(** A run of an existing schedule, all of whose zones are in the zone
    map, returns; its relay calls are the engage and disengage calls of
    the zones [zs], one zone after the other, where [zs] is in ascending
    order without repetition and holds exactly the zones of the schedule
    that are enabled in the zone map and have a duration other than 0.
    An entry that is passed over thus causes no relay call, and a run
    that passes over every entry keeps the errorcode it started with. *)
Theorem schedule_run_zones env relay_trigger s d errorcode w sched :
  schedules d !! s = Some sched ->
  dom (zones sched) ⊆ dom (zonemap d) ->
  exists zs r w',
    schedule_run_branch env relay_trigger s d errorcode w = Ok r w' /\
    relay_trace (emitted w w') = zs ≫= onoff relay_trigger /\
    StronglySorted String.le zs /\ NoDup zs /\
    (forall k, k ∈ zs <->
       exists z e, zonemap d !! k = Some z /\ enabled z = true /\
                   zones sched !! k = Some e /\ duration e <> 0) /\
    (zs = [] -> r.2 = errorcode).
Proof.
  intros Hs Hdom.
  destruct (schedule_run_spec env relay_trigger s d errorcode w sched Hs Hdom)
    as (d1 & ec1 & w1 & sched1 & evs & _ & _ & Hrun & Ht & Hr & Hnil).
  destruct (scheduled_zones_spec d sched) as (Hsorted & Hnodup & Hin).
  eexists (scheduled_zones d sched), _, _. split; [exact Hrun|].
  split_and!; [|done..].
  erewrite emitted_app; [|cbn; rewrite Ht, <- !app_assoc; reflexivity].
  rewrite !relay_trace_app, Hr. cbn. by rewrite app_nil_r.
Qed.

Lemma schedule_run_zones_witness :
  exists zs r w',
    schedule_run_branch ex_env 0 "morning" ex_doc 0 ex_world = Ok r w' /\
    relay_trace (emitted ex_world w') = zs ≫= onoff 0 /\
    StronglySorted String.le zs /\ NoDup zs /\
    (forall k, k ∈ zs <->
       exists z e, zonemap ex_doc !! k = Some z /\ enabled z = true /\
                   zones (mkSchedule false
                            {[ "frontlawn" := mkZoneEntry 1; "garden" := mkZoneEntry 2;
                               "backyard" := mkZoneEntry 1 ]}) !! k = Some e /\
                   duration e <> 0) /\
    (zs = [] -> r.2 = 0).
Proof.
  apply (schedule_run_zones ex_env 0 "morning" ex_doc 0 ex_world).
  - reflexivity.
  - by vm_compute.
Defined.

(** The run of "morning" on the sample installation: "garden" is
    disabled and is passed over; the other two zones run in the order of
    their names. *)
Example schedule_run_relay_calls :
  relay_trace (trace (world_of
    (schedule_run_branch ex_env 0 "morning" ex_doc 0 ex_world))) =
  [(0, "backyard"); (1, "backyard"); (0, "frontlawn"); (1, "frontlawn")].
Proof. vm_compute. reflexivity. Qed.

(** In a run of an existing schedule, all of whose zones are in the
    zone map, let (k, e) be the last included entry of the sorted entries:
    the entries before it are run first and leave some errorcode1, and the
    errorcode of the schedule run is the value returned by the Irrigate
    call for k; errorcode1 and the errorcode the run started with do not
    enter it. *)
Theorem schedule_errorcode_last env relay_trigger s d errorcode w sched l1 k e l2 :
  schedules d !! s = Some sched ->
  dom (zones sched) ⊆ dom (zonemap d) ->
  sorted_items (zones sched) = l1 ++ (k, e) :: l2 ->
  zone_enabled d k = true -> duration e <> 0 ->
  included d l2 = [] ->
  exists d1 errorcode1 w1 z d' w',
    zone_loop env relay_trigger l1 (mark_schedule s true sched d) errorcode
      (WriteJSON (mark_schedule s true sched d)
         (write_log (LogScheduleFound s) (write_log (LogScheduleSelected s) w).2).2).2
      = Ok (d1, errorcode1) w1 /\
    zonemap d1 !! k = Some z /\
    schedule_run_branch env relay_trigger s d errorcode w =
      Ok (d', (Irrigate env k (duration e) relay_trigger
                 (WriteJSON (mark_zone k true z d1) w1).2).1) w'.
Proof.
  intros Hs Hdom Hsplit Hen Hd Hl2.
  destruct (schedule_run_spec env relay_trigger s d errorcode w sched Hs Hdom)
    as (df & ecf & wf & sched1 & evs & Hloop & _ & Hrun & _).
  set (d0 := mark_schedule s true sched d) in *.
  set (w0 := (WriteJSON d0 _).2) in *.
  assert (Hin : forall it, it ∈ l1 ++ (k, e) :: l2 -> is_Some (zonemap d0 !! it.1)).
  { rewrite <- Hsplit. by apply items_in_zonemap. }
  destruct (zone_loop_run env relay_trigger l1 d0 errorcode w0)
    as (d1 & ec1 & w1 & evs1 & Hl1 & Hf1 & Hen1 & _); [done|set_solver|].
  rewrite Hsplit, zone_loop_app, Hl1 in Hloop.
  assert (is_Some (zonemap d1 !! k)) as [z Hz].
  { apply (is_Some_zonemap_ext d0 d1); [done|]. apply (Hin (k, e)). set_solver. }
  assert (Hez : enabled z = true).
  { rewrite <- Hen. change (zone_enabled d k) with (zone_enabled d0 k).
    rewrite !zone_enabled_fmap, <- Hen1, lookup_fmap, Hz. done. }
  destruct (zone_loop_run_one env relay_trigger k e l2 d1 ec1 w1 z)
    as (d2 & w2 & evs2 & Hone & Hf2 & Hen2 & _); [done..|].
  rewrite Hone in Hloop.
  destruct (zone_loop_run env relay_trigger l2 d2
              (Irrigate env k (duration e) relay_trigger
                 (WriteJSON (mark_zone k true z d1) w1).2).1 w2)
    as (d3 & ec3 & w3 & evs3 & Hl2' & _ & _ & _ & _ & _ & Hnil); [done|..].
  { intros it Hit. apply (is_Some_zonemap_ext d0 d2); [by rewrite Hen2, Hen1|].
    apply Hin. set_solver. }
  destruct Hnil as (-> & -> & ->).
  { rewrite (included_ext d0 d2) by (by rewrite Hen2, Hen1). exact Hl2. }
  rewrite Hl2' in Hloop. injection Hloop as <- <- <-.
  by eexists d1, ec1, w1, z, _, _.
Qed.

Lemma schedule_errorcode_last_witness :
  exists d1 errorcode1 w1 z d' w',
    zone_loop ex_env_faulty 0 [("backyard", mkZoneEntry 1)]
      (mark_schedule "morning" true
         (mkSchedule false
            {[ "frontlawn" := mkZoneEntry 1; "garden" := mkZoneEntry 2;
               "backyard" := mkZoneEntry 1 ]}) ex_doc) 0
      (WriteJSON (mark_schedule "morning" true
                    (mkSchedule false
                       {[ "frontlawn" := mkZoneEntry 1; "garden" := mkZoneEntry 2;
                          "backyard" := mkZoneEntry 1 ]}) ex_doc)
         (write_log (LogScheduleFound "morning")
            (write_log (LogScheduleSelected "morning") ex_world).2).2).2
      = Ok (d1, errorcode1) w1 /\
    zonemap d1 !! "frontlawn" = Some z /\
    schedule_run_branch ex_env_faulty 0 "morning" ex_doc 0 ex_world =
      Ok (d', (Irrigate ex_env_faulty "frontlawn" (duration (mkZoneEntry 1)) 0
                 (WriteJSON (mark_zone "frontlawn" true z d1) w1).2).1) w'.
Proof.
  apply (schedule_errorcode_last ex_env_faulty 0 "morning" ex_doc 0 ex_world _
           [("backyard", mkZoneEntry 1)] "frontlawn" (mkZoneEntry 1)
           [("garden", mkZoneEntry 2)]).
  - reflexivity.
  - by vm_compute.
  - by vm_compute.
  - reflexivity.
  - done.
  - by vm_compute.
Defined.

(** The relays answer 3 and 4 for the first zone and 5 and 6 for the
    second: the schedule run ends with 11, not 18. *)
Example schedule_errorcode_not_aggregated :
  match outcome (schedule_run_branch ex_env_faulty 0 "morning" ex_doc 0 ex_world) with
  | inl r => Some r.2
  | inr _ => None
  end = Some 11.
Proof. vm_compute. reflexivity. Qed.

(** ** The force flag *)

Lemma relay_trace_setup evs : Forall setup_event evs -> relay_trace evs = [].
Proof. induction 1 as [|[] ? ? ? IH]; cbn in *; auto; done. Qed.

(** A manual run of a zone that is in the zone map: the zone is marked
    active, run by Irrigate and marked inactive; the errorcode is that of
    the Irrigate call. *)
Lemma manual_run_spec env relay_trigger zone duration d w z :
  zonemap d !! zone = Some z ->
  exists d' w' evs,
    manual_run_branch env relay_trigger zone duration d w =
      Ok (d', (Irrigate env zone duration relay_trigger
                 (WriteJSON (mark_zone zone true z d)
                    (write_log LogManualSelected w).2).2).1) w' /\
    trace w' = trace w ++ evs /\
    relay_trace evs = onoff relay_trigger zone.
Proof.
  intros Hz. unfold manual_run_branch. rewrite bind_lift, Hz, !bind_lift.
  set (w1 := (WriteJSON _ _).2).
  destruct (Irrigate_spec env zone duration relay_trigger w1)
    as (ievs & dI & HtI & HpI & _).
  cbn zeta in HtI.
  set (rI := Irrigate env zone duration relay_trigger w1) in *. clearbody rI.
  assert (Hz' : zonemap (mark_zone zone true z d) !! zone = Some (with_zone_active true z))
    by apply lookup_insert_eq.
  rewrite (bind_getitem_Some _ _ _ _ _ Hz'), bind_lift.
  eexists _, _, _. split; [reflexivity|]. cbn [fst snd]. split.
  - cbn. rewrite HtI. cbn. rewrite <- !app_assoc. reflexivity.
  - rewrite !relay_trace_app. cbn. by rewrite !relay_trace_app, (relay_trace_poll _ HpI).
Qed.

(** The script after a tree that returned. *)
Lemma main_after_tree env args w v w1 r w2 :
  setup env args w = Ok v w1 ->
  decision_tree env v w1 = Ok r w2 ->
  exists w', main env args w = Ok r.2 w' /\
             relay_trace (emitted w w') =
               relay_trace (emitted w w1) ++ relay_trace (emitted w1 w2).
Proof.
  intros Hs Ht. unfold main. rewrite bind_eq, Hs, bind_eq, Ht.
  destruct r as [d ec]. destruct (finish_spec d ec w2) as (w' & -> & Ht' & _).
  exists w'. split; [done|].
  destruct (setup_spec env args w) as (v' & w1' & pre & Hs' & Htp & _).
  rewrite Hs in Hs'. injection Hs' as <- <-.
  destruct (emits_decision_tree env v w1) as (body & Htb & _).
  rewrite Ht in Htb. cbn in Htb.
  rewrite (emitted_app _ _ _ Htp), (emitted_app _ _ _ Htb).
  erewrite emitted_app; [|rewrite Ht', Htb, Htp, <- !app_assoc; reflexivity].
  rewrite !relay_trace_app. cbn. by rewrite app_nil_r.
Qed.

(** The forced manual run of "frontlawn" under a tripped history check. *)
Example force_run_relay_calls :
  (wx_flags (wx_data ex_doc) (checkweather ex_env_rain).1).1 = true /\
  outcome (main ex_env_rain ex_args_force ex_world) = inl 0 /\
  relay_trace (trace (world_of (main ex_env_rain ex_args_force ex_world))) =
    [(0, "frontlawn"); (1, "frontlawn")].
Proof. split_and!; vm_compute; reflexivity. Qed.

(** ** Runs that reach the closing phase *)

(** When the zones of the selected schedule, if it exists, are all in the
    zone map, the script returns; by [main_cleanup_once] it then called
    cleanup once and cleared both control flags. *)
Lemma main_returns env args w :
  (forall sched,
     schedules (file w) !!
       (if truthy (arg_schedule args) then default "" (arg_schedule args) else "null")
       = Some sched ->
     dom (zones sched) ⊆ dom (zonemap (file w))) ->
  exists errorcode w', main env args w = Ok errorcode w'.
Proof.
  intros Hwf.
  destruct (setup_spec env args w)
    as (v & w1 & pre & Hs & _ & _ & _ & _ & Hc & _ & _ & _ & _ & Hsel & _).
  assert (Hzm : zonemap (v_json_data_dict v) = zonemap (file w))
    by (by rewrite (same_config_zonemap _ _ Hc)).
  assert (Hsc : schedules (v_json_data_dict v) = schedules (file w))
    by (by rewrite (same_config_schedules _ _ Hc)).
  assert (exists r w2, decision_tree env v w1 = Ok r w2) as (r & w2 & Ht).
  { unfold decision_tree.
    destruct (select_branch _ _ _ _); try (rewrite bind_lift; by eexists _, _).
    - destruct (schedules (v_json_data_dict v) !! v_schedule_selected v)
        as [sched|] eqn:Hsched.
      + destruct (schedule_run_spec env (v_relay_trigger v) (v_schedule_selected v)
                    (v_json_data_dict v) (v_errorcode v) w1 sched Hsched)
          as (? & ? & ? & ? & ? & _ & _ & -> & _); [|by eexists _, _].
        rewrite Hzm. apply Hwf. by rewrite <- Hsel, <- Hsc.
      + unfold schedule_run_branch. rewrite bind_lift, Hsched, bind_lift.
        by eexists _, _.
    - destruct (zonemap (v_json_data_dict v) !! v_zone v) as [z|] eqn:Hz.
      + destruct (manual_run_spec env (v_relay_trigger v) (v_zone v) (v_duration v)
                    (v_json_data_dict v) w1 z Hz) as (? & ? & ? & -> & _).
        by eexists _, _.
      + unfold manual_run_branch. rewrite bind_lift, Hz, bind_lift.
        by eexists _, _. }
  destruct (main_after_tree env args w v w1 r w2 Hs Ht) as (w' & Hmain & _).
  by exists r.2, w'.
Qed.

(** ** Runs that do not reach the closing phase *)

(** A run that raised never called cleanup. *)
Lemma main_raise_no_cleanup env args w ex w' :
  main env args w = Raise ex w' -> cleanup_trace (emitted w w') = [].
Proof.
  intros Hmain.
  destruct (main_spec env args w) as (pre & body & Hp & Hb & _ & Hm).
  rewrite Hmain in Hm. rewrite (emitted_app _ _ _ Hm).
  unfold cleanup_trace. rewrite omap_app.
  fold (cleanup_trace pre) (cleanup_trace body).
  rewrite (cleanup_trace_none _ _ setup_event_not_cleanup Hp).
  by rewrite (cleanup_trace_none _ _ (tree_event_not_cleanup _) Hb).
Qed.

(** The zone loop raises KeyError as soon as it meets an entry whose zone
    is not in the zone map. *)
Lemma zone_loop_raises env relay_trigger items :
  forall d errorcode w,
    file w = d ->
    (exists it, it ∈ items /\ zonemap d !! it.1 = None) ->
    exists k w',
      zone_loop env relay_trigger items d errorcode w = Raise (KeyError k) w' /\
      zonemap d !! k = None.
Proof.
  induction items as [|[k e] rest IH]; intros d errorcode w Hf (it & Hit & Hnone).
  { by apply elem_of_nil in Hit. }
  destruct (zonemap d !! k) as [z|] eqn:Hz.
  - assert (Hrest : it ∈ rest).
    { apply elem_of_cons in Hit as [->|]; [|done]. cbn in Hnone. congruence. }
    destruct (decide (enabled z = true /\ duration e <> 0)) as [[He Hd]|Hn].
    + destruct (zone_loop_run_one env relay_trigger k e rest d errorcode w z)
        as (d1 & w1 & evs1 & -> & Hf1 & Hen1 & _); [done..|].
      assert (Hext : forall k', zonemap d !! k' = None -> zonemap d1 !! k' = None).
      { intros k' Hk'. apply (fmap_None enabled).
        rewrite <- lookup_fmap, Hen1, lookup_fmap. by rewrite Hk'. }
      destruct (IH d1 (Irrigate env k (duration e) relay_trigger
                         (WriteJSON (mark_zone k true z d) w).2).1 w1)
        as (k' & w' & -> & Hk'); [done|by eauto|].
      exists k', w'. split; [done|].
      destruct (zonemap d !! k') as [z'|] eqn:Hz'; [|done].
      assert (is_Some (zonemap d1 !! k')) as [? ?]; [|congruence].
      apply (is_Some_zonemap_ext d d1); by eauto.
    + rewrite (zone_loop_skip _ _ _ _ _ _ _ _ _ Hz Hn). apply IH; by eauto.
  - exists k, w. split; [|done]. cbn [zone_loop].
    by rewrite (bind_getitem_None _ _ _ _ Hz).
Qed.

(** The defect behind [main_stale_schedule_skips_cleanup] in general: when
    the scheduled-run branch is taken for an existing schedule that names
    a zone missing from the zone map, the script raises KeyError and
    cleanup is never called. *)
Lemma main_stale_schedule_raises env args w s sched k0 e0 :
  arg_init args = false ->
  arg_schedule args = Some s -> s <> "" ->
  (arg_force args = true \/
   (wx_flags (wx_data (file w)) (checkweather env).1).1 = false) ->
  schedules (file w) !! s = Some sched ->
  zones sched !! k0 = Some e0 -> zonemap (file w) !! k0 = None ->
  exists k w',
    main env args w = Raise (KeyError k) w' /\
    zonemap (file w) !! k = None /\
    cleanup_trace (emitted w w') = [].
Proof.
  intros Hinit Hsched Hne Hgo Hs He0 Hk0.
  destruct (setup_spec env args w)
    as (v & w1 & pre & Hsetup & _ & _ & Hf1 & _ & Hc & _ & Hf & Hi & Hrun & Hsel & _
        & _ & _ & Hwx & _).
  assert (Htruthy : truthy (arg_schedule args) = true).
  { rewrite Hsched. cbn. by destruct (String.eqb_spec s ""). }
  rewrite Htruthy, Hsched in Hsel. cbn in Hsel. rewrite Htruthy in Hrun.
  assert (Hzm : zonemap (v_json_data_dict v) = zonemap (file w))
    by (by rewrite (same_config_zonemap _ _ Hc)).
  assert (Hsc : schedules (v_json_data_dict v) = schedules (file w))
    by (by rewrite (same_config_schedules _ _ Hc)).
  assert (Hbr : select_branch (v_init v) (v_schedule_run v) (v_wx_cancel v) (v_force v)
                = BSchedule).
  { rewrite select_branch_cases, Hi, Hinit, Hrun, Hf.
    destruct Hgo as [->|Hgo]; [by rewrite orb_true_r|].
    rewrite <- Hwx in Hgo. cbn in Hgo. by rewrite Hgo. }
  assert (exists it, it ∈ sorted_items (zones sched) /\
                     zonemap (mark_schedule s true sched (v_json_data_dict v)) !! it.1 = None)
    as Hmissing.
  { exists (k0, e0). split; [by apply sorted_items_spec|]. cbn. by rewrite Hzm. }
  destruct (zone_loop_raises env (v_relay_trigger v) (sorted_items (zones sched))
              (mark_schedule s true sched (v_json_data_dict v)) (v_errorcode v)
              (WriteJSON (mark_schedule s true sched (v_json_data_dict v))
                 (write_log (LogScheduleFound s)
                    (write_log (LogScheduleSelected s) w1).2).2).2)
    as (k & w' & Hloop & Hk); [done|done|].
  assert (Hmain : main env args w = Raise (KeyError k) w').
  { unfold main. rewrite bind_eq, Hsetup, bind_eq.
    unfold decision_tree. rewrite Hbr, Hsel.
    unfold schedule_run_branch. rewrite bind_lift, Hsc, Hs, !bind_lift, bind_eq.
    by rewrite Hloop. }
  exists k, w'. split_and!; [done| |by eapply main_raise_no_cleanup].
  by rewrite <- Hzm.
Qed.

(** ** The outcome of each branch of the tree *)

(** The events of a run that reached the closing phase: those of the
    setup, those of the tree, and the four closing ones. *)
Lemma main_trace_after_tree env args w v w1 d errorcode w2 :
  setup env args w = Ok v w1 ->
  decision_tree env v w1 = Ok (d, errorcode) w2 ->
  exists w',
    main env args w = Ok errorcode w' /\
    emitted w w' = emitted w w1 ++ emitted w1 w2 ++
                   [Cleanup; WriteLog (LogExiting errorcode); WriteLog LogEnded;
                    WriteDoc (file w')] /\
    file w' = set_manual_override false (set_active false d).
Proof.
  intros Hs Ht. unfold main. rewrite bind_eq, Hs, bind_eq, Ht.
  destruct (finish_spec d errorcode w2) as (w' & -> & Ht' & Hf').
  exists w'. split_and!; [done| |done].
  destruct (setup_spec env args w) as (v' & w1' & pre & Hs' & Htp & _).
  rewrite Hs in Hs'. injection Hs' as <- <-.
  destruct (emits_decision_tree env v w1) as (body & Htb & _).
  rewrite Ht in Htb. cbn in Htb.
  rewrite (emitted_app _ _ _ Htp), (emitted_app _ _ _ Htb).
  apply emitted_app. by rewrite Ht', Htb, Htp, <- !app_assoc.
Qed.

Lemma relay_trace_emitted_setup env args w v w1 :
  setup env args w = Ok v w1 -> relay_trace (emitted w w1) = [].
Proof.
  intros Hs.
  destruct (setup_spec env args w) as (v' & w1' & pre & Hs' & Htp & Hp & _).
  rewrite Hs in Hs'. injection Hs' as <- <-.
  rewrite (emitted_app _ _ _ Htp). by apply relay_trace_setup.
Qed.

(** A tree that only logs one line [l] and goes on with errorcode [ec]. *)
Lemma main_one_line env args w v w1 l ec :
  setup env args w = Ok v w1 ->
  decision_tree env v w1 = Ok (v_json_data_dict v, ec) (write_log l w1).2 ->
  exists w',
    main env args w = Ok ec w' /\
    relay_trace (emitted w w') = [] /\
    WriteLog l ∈ emitted w w'.
Proof.
  intros Hs Ht.
  destruct (main_trace_after_tree env args w v w1 _ _ _ Hs Ht) as (w' & Hm & He & _).
  exists w'. split; [done|]. rewrite He.
  rewrite (emitted_app w1 (write_log l w1).2 [WriteLog l]) by done.
  rewrite !relay_trace_app, (relay_trace_emitted_setup _ _ _ _ _ Hs).
  split; [done|]. set_solver.
Qed.

(** The flags of the tree in terms of the command line and the files. *)
Lemma setup_flags env args w :
  exists v w1,
    setup env args w = Ok v w1 /\
    v_init v = arg_init args /\ v_force v = arg_force args /\
    v_schedule_run v = truthy (arg_schedule args) /\
    v_schedule_selected v = requested_schedule args /\
    v_zone v = requested_zone args /\
    v_duration v = default 0 (arg_duration args) /\
    v_relay_trigger v = relay_trigger (settings (file w)) /\
    v_errorcode v = (checkweather env).2 /\
    v_wx_cancel v = weather_cancel env w /\
    v_wx_cancel_reason v = weather_reason env w /\
    zonemap (v_json_data_dict v) = zonemap (file w) /\
    schedules (v_json_data_dict v) = schedules (file w) /\
    file w1 = v_json_data_dict v.
Proof.
  destruct (setup_spec env args w)
    as (v & w1 & pre & Hs & _ & _ & Hf1 & _ & Hc & Ht & Hf & Hi & Hr & Hsel & Hz & Hd
        & He & Hwx & _).
  exists v, w1. unfold weather_cancel, weather_reason. rewrite <- Hwx.
  split_and!; try done.
  - by rewrite (same_config_zonemap _ _ Hc).
  - by rewrite (same_config_schedules _ _ Hc).
Qed.


(** Without -i and -f, tripped weather flags cancel the run: no relay is
    called, the reasons are logged and the script ends with errorcode 1. *)
Theorem weather_cancelled_run env args w :
  arg_init args = false -> arg_force args = false ->
  weather_cancel env w = true ->
  exists w',
    main env args w = Ok 1 w' /\
    relay_trace (emitted w w') = [] /\
    WriteLog (LogWxCancelled (weather_reason env w)) ∈ emitted w w'.
Proof.
  intros Hinit Hforce Hwx.
  destruct (setup_flags env args w)
    as (v & w1 & Hs & Hi & Hf & _ & _ & _ & _ & _ & _ & Hc & Hr & _).
  rewrite <- Hr. apply (main_one_line env args w v w1 _ _ Hs).
  unfold decision_tree. rewrite select_branch_cases, Hi, Hinit, Hf, Hforce, Hc, Hwx.
  cbn [negb orb]. cbv beta iota. by rewrite bind_lift.
Qed.

Lemma weather_cancelled_run_witness :
  exists w',
    main ex_env_rain ex_args_morning ex_world = Ok 1 w' /\
    relay_trace (emitted ex_world w') = [] /\
    WriteLog (LogWxCancelled (weather_reason ex_env_rain ex_world))
      ∈ emitted ex_world w'.
Proof.
  apply (weather_cancelled_run ex_env_rain ex_args_morning ex_world); reflexivity.
Defined.

(** A manual run of a zone that is not in the zone map calls no relay and
    ends with errorcode 1.  The zone is "null" when -z is missing or
    empty. *)
Theorem manual_unknown_zone env args w :
  arg_init args = false ->
  truthy (arg_schedule args) = false ->
  (arg_force args = true \/ weather_cancel env w = false) ->
  zonemap (file w) !! requested_zone args = None ->
  exists w',
    main env args w = Ok 1 w' /\
    relay_trace (emitted w w') = [] /\
    WriteLog (LogZoneNotFound (requested_zone args)) ∈ emitted w w'.
Proof.
  intros Hinit Hsched Hgo Hnone.
  assert (Hor : negb (weather_cancel env w) || arg_force args = true).
  { destruct Hgo as [Hg|Hg]; rewrite Hg; by rewrite ?orb_true_r. }
  destruct (setup_flags env args w)
    as (v & w1 & Hs & Hi & Hf & Hr & _ & Hz & _ & _ & _ & Hc & _ & Hzm & _).
  assert (Ht : decision_tree env v w1 =
               Ok (v_json_data_dict v, 1)
                  (write_log (LogZoneNotFound (requested_zone args))
                     (write_log LogManualSelected w1).2).2).
  { unfold decision_tree. rewrite select_branch_cases, Hi, Hinit, Hf, Hr, Hsched, Hc.
    rewrite Hor. cbv beta iota. unfold manual_run_branch. by rewrite bind_lift, Hzm, Hz, Hnone, bind_lift. }
  destruct (main_trace_after_tree env args w v w1 _ _ _ Hs Ht) as (w' & Hm & He & _).
  exists w'. split; [done|]. rewrite He.
  rewrite (emitted_app w1 _ [WriteLog LogManualSelected;
                             WriteLog (LogZoneNotFound (requested_zone args))])
    by (cbn; by rewrite <- app_assoc).
  rewrite !relay_trace_app, (relay_trace_emitted_setup _ _ _ _ _ Hs).
  split; [done|]. rewrite !elem_of_app, !elem_of_cons. auto.
Qed.

Lemma manual_unknown_zone_witness :
  exists w',
    main ex_env (mkArgs None None None false false) ex_world = Ok 1 w' /\
    relay_trace (emitted ex_world w') = [] /\
    WriteLog (LogZoneNotFound "null") ∈ emitted ex_world w'.
Proof.
  apply (manual_unknown_zone ex_env (mkArgs None None None false false) ex_world);
    try reflexivity.
  right. reflexivity.
Defined.

(** A scheduled run of a schedule that is not in the document calls no
    relay and ends with errorcode 1. *)
Theorem unknown_schedule env args w :
  arg_init args = false ->
  truthy (arg_schedule args) = true ->
  (arg_force args = true \/ weather_cancel env w = false) ->
  schedules (file w) !! requested_schedule args = None ->
  exists w',
    main env args w = Ok 1 w' /\
    relay_trace (emitted w w') = [] /\
    WriteLog (LogScheduleNotFound (requested_schedule args)) ∈ emitted w w'.
Proof.
  intros Hinit Hsched Hgo Hnone.
  assert (Hor : negb (weather_cancel env w) || arg_force args = true).
  { destruct Hgo as [Hg|Hg]; rewrite Hg; by rewrite ?orb_true_r. }
  destruct (setup_flags env args w)
    as (v & w1 & Hs & Hi & Hf & Hr & Hsel & _ & _ & _ & _ & Hc & _ & _ & Hsc & _).
  assert (Ht : decision_tree env v w1 =
               Ok (v_json_data_dict v, 1)
                  (write_log (LogScheduleNotFound (requested_schedule args))
                     (write_log (LogScheduleSelected (requested_schedule args)) w1).2).2).
  { unfold decision_tree. rewrite select_branch_cases, Hi, Hinit, Hf, Hr, Hsched, Hc.
    rewrite Hor. cbv beta iota. unfold schedule_run_branch. by rewrite bind_lift, Hsc, Hsel, Hnone, bind_lift. }
  destruct (main_trace_after_tree env args w v w1 _ _ _ Hs Ht) as (w' & Hm & He & _).
  exists w'. split; [done|]. rewrite He.
  rewrite (emitted_app w1 _ [WriteLog (LogScheduleSelected (requested_schedule args));
                             WriteLog (LogScheduleNotFound (requested_schedule args))])
    by (cbn; by rewrite <- app_assoc).
  rewrite !relay_trace_app, (relay_trace_emitted_setup _ _ _ _ _ Hs).
  split; [done|]. rewrite !elem_of_app, !elem_of_cons. auto.
Qed.

Lemma unknown_schedule_witness :
  exists w',
    main ex_env (mkArgs None None (Some "noon") false false) ex_world = Ok 1 w' /\
    relay_trace (emitted ex_world w') = [] /\
    WriteLog (LogScheduleNotFound "noon") ∈ emitted ex_world w'.
Proof.
  apply (unknown_schedule ex_env (mkArgs None None (Some "noon") false false) ex_world);
    try reflexivity.
  right. reflexivity.
Defined.

(** ** How long a zone is held *)

Lemma sleep_trace_app t1 t2 : sleep_trace (t1 ++ t2) = sleep_trace t1 ++ sleep_trace t2.
Proof. apply omap_app. Qed.

(** Irrigate, step by step. *)
Lemma Irrigate_steps env zonename duration relay_trigger w :
  let w1 := (setrelay env relay_trigger zonename
               (write_log (LogTurningOn zonename duration) w).2).2 in
  let w2 := hold env (clock w) duration w1 in
  let w3 := (setrelay env (py_not relay_trigger) zonename
               (write_log (LogTurningOff zonename) w2).2).2 in
  Irrigate env zonename duration relay_trigger w =
    (if (CheckOverride env w3).1 >? 0 then 42
     else setrelay_rc env (relay_calls w) + setrelay_rc env (relay_calls w2),
     (CheckOverride env w3).2).
Proof.
  cbv zeta. unfold Irrigate. cbn -[hold CheckOverride].
  by destruct (CheckOverride env _).
Qed.


Lemma ReadJSON_overridden env w :
  overridden env w ->
  manual_override (controls (ReadJSON env w).1) = true /\
  overridden env (ReadJSON env w).2.
Proof.
  intros [Hf Hk]. unfold ReadJSON. cbn.
  assert (Hd : manual_override (controls
               match ext_override env (reads w) with
               | Some b => set_manual_override b (file w)
               | None => file w
               end) = true).
  { destruct (ext_override env (reads w)) as [[]|] eqn:He; [done| |done].
    by destruct (Hk (reads w)). }
  split; [done|]. split; [done|]. cbn. intros k Hle. apply Hk. lia.
Qed.



(** With the override flag seen at every read, the hold loop does not
    sleep at all. *)
Lemma hold_overridden env starttime duration w :
  overridden env w ->
  exists evs,
    trace (hold env starttime duration w) = trace w ++ evs /\
    sleep_trace evs = [] /\
    clock (hold env starttime duration w) = clock w /\
    overridden env (hold env starttime duration w).
Proof.
  funelim (hold env starttime duration w); clear Heqcall; intros Ho.
  - clear Heq H. destruct (ReadJSON_overridden env w Ho) as (Hd & Ho').
    destruct (ReadJSON_spec env w) as (Ht & _ & _ & _ & Hck & _).
    unfold CheckOverride. destruct (ReadJSON env w) as [d w1]; cbn in *.
    rewrite Hd. cbn. by exists [ReadDoc d].
  - exists []. by rewrite app_nil_r.
Qed.

Lemma hold_done env starttime duration w :
  ~ (clock w - starttime < inject_Z (duration * 60))%Q ->
  hold env starttime duration w = w.
Proof. funelim (hold env starttime duration w); [done|]. by intros _. Qed.




(** When every read sees the override flag, as after a flag left set in
    the file, Irrigate switches the zone on and off without a pause and
    returns 42. *)
Lemma Irrigate_under_override env zonename duration relay_trigger w :
  overridden env w ->
  (Irrigate env zonename duration relay_trigger w).1 = 42 /\
  clock (Irrigate env zonename duration relay_trigger w).2 = clock w /\
  sleep_trace (emitted w (Irrigate env zonename duration relay_trigger w).2) = [] /\
  overridden env (Irrigate env zonename duration relay_trigger w).2.
Proof.
  intros Ho. rewrite Irrigate_steps. cbv zeta.
  set (w1 := (setrelay env relay_trigger zonename _).2).
  assert (Ho1 : overridden env w1) by exact Ho.
  destruct (hold_overridden env (clock w) duration w1 Ho1) as (evs & Ht & Hs & Hc & Ho2).
  set (w2 := hold env (clock w) duration w1) in *.
  set (w3 := (setrelay env (py_not relay_trigger) zonename _).2).
  assert (Ho3 : overridden env w3) by exact Ho2.
  destruct (ReadJSON_overridden env w3 Ho3) as (Hd & Ho4).
  destruct (ReadJSON_spec env w3) as (Ht3 & _ & _ & _ & Hck & _).
  unfold CheckOverride. destruct (ReadJSON env w3) as [d w4]; cbn [fst snd] in *.
  rewrite Hd. cbn [Z.gtb Z.compare].
  split_and!; [done| | |done].
  - rewrite Hck. change (clock w3) with (clock w2). by rewrite Hc.
  - erewrite emitted_app; [|rewrite Ht3; cbn; rewrite Ht; cbn; rewrite <- !app_assoc;
                            reflexivity].
    rewrite !sleep_trace_app, Hs. done.
Qed.

(** An Irrigate call started while the override flag stands in the file
    and is not cleared makes the two relay calls of the zone, the one
    right after the other without a sleep in between, and returns 42. *)
Theorem Irrigate_overridden env zonename duration relay_trigger w :
  overridden env w ->
  (Irrigate env zonename duration relay_trigger w).1 = 42 /\
  relay_trace (emitted w (Irrigate env zonename duration relay_trigger w).2) =
    onoff relay_trigger zonename /\
  sleep_trace (emitted w (Irrigate env zonename duration relay_trigger w).2) = [] /\
  clock (Irrigate env zonename duration relay_trigger w).2 = clock w.
Proof.
  intros Ho.
  destruct (Irrigate_under_override env zonename duration relay_trigger w Ho)
    as (H42 & Hc & Hs & _).
  destruct (Irrigate_spec env zonename duration relay_trigger w)
    as (evs & d & Ht & Hp & _).
  cbn zeta in Ht.
  split_and!; try done.
  rewrite (emitted_app _ _ _ Ht), !relay_trace_app, (relay_trace_poll _ Hp).
  reflexivity.
Qed.

Lemma Irrigate_overridden_witness :
  (Irrigate ex_env "frontlawn" 2 0
     (mkWorld (set_manual_override true ex_doc) 0 0 0 [])).1 = 42 /\
  relay_trace
    (emitted (mkWorld (set_manual_override true ex_doc) 0 0 0 [])
       (Irrigate ex_env "frontlawn" 2 0
          (mkWorld (set_manual_override true ex_doc) 0 0 0 [])).2) =
    onoff 0 "frontlawn".
Proof.
  destruct (Irrigate_overridden ex_env "frontlawn" 2 0
              (mkWorld (set_manual_override true ex_doc) 0 0 0 []))
    as (H42 & Hr & _).
  - split; [reflexivity|]. intros k _. discriminate.
  - split; [exact H42|exact Hr].
Defined.

(** With a duration of 0 or less the zone is switched on and off at once:
    the hold loop is not entered, so the override flag is read only after
    the relay is off. *)
Theorem Irrigate_no_duration env zonename duration relay_trigger w :
  duration <= 0 ->
  emitted w (Irrigate env zonename duration relay_trigger w).2 =
    [WriteLog (LogTurningOn zonename duration); SetRelay relay_trigger zonename;
     WriteLog (LogTurningOff zonename); SetRelay (py_not relay_trigger) zonename;
     ReadDoc (file (Irrigate env zonename duration relay_trigger w).2)] /\
  clock (Irrigate env zonename duration relay_trigger w).2 = clock w.
Proof.
  intros Hd. rewrite Irrigate_steps. cbv zeta.
  rewrite hold_done.
  2:{ cbn [setrelay write_log emit clock snd]. intros Hlt.
      assert (Hpos : (inject_Z 0 < inject_Z (duration * 60))%Q).
      { change (inject_Z 0) with 0%Q.
        set (x := inject_Z (duration * 60)) in *. clearbody x. lra. }
      rewrite <- Zlt_Qlt in Hpos. lia. }
  set (w3 := (setrelay env (py_not relay_trigger) zonename _).2).
  destruct (ReadJSON_spec env w3) as (Ht3 & Hf3 & _ & _ & Hck & _).
  unfold CheckOverride. destruct (ReadJSON env w3) as [d w4]; cbn [fst snd] in *.
  split; [|by rewrite Hck].
  apply emitted_app. rewrite Ht3, Hf3. cbn. by rewrite <- !app_assoc.
Qed.

Lemma Irrigate_no_duration_witness :
  clock (Irrigate ex_env "frontlawn" 0 0 ex_world).2 = clock ex_world.
Proof. apply (Irrigate_no_duration ex_env "frontlawn" 0 0 ex_world). lia. Defined.

(** ** The weather flags, check by check *)

(** The flags in terms of the four checks. *)
Lemma wx_flags_checks wxd wx_status :
  (wx_flags wxd wx_status).1 =
    history_trips wxd wx_status || forecast_trips wxd wx_status ||
    temperature_trips wxd wx_status || forecast_history_trips wxd wx_status /\
  mentions tag_history (wx_flags wxd wx_status).2 = history_trips wxd wx_status /\
  mentions tag_forecast (wx_flags wxd wx_status).2 = forecast_trips wxd wx_status /\
  mentions tag_temperature (wx_flags wxd wx_status).2 =
    temperature_trips wxd wx_status /\
  mentions tag_forecast_history (wx_flags wxd wx_status).2 =
    forecast_history_trips wxd wx_status.
Proof.
  unfold wx_flags.
  fold (history_trips wxd wx_status) (forecast_trips wxd wx_status)
       (temperature_trips wxd wx_status) (forecast_history_trips wxd wx_status).
  destruct (history_trips _ _), (forecast_trips _ _), (temperature_trips _ _),
    (forecast_history_trips _ _); by vm_compute.
Qed.

(** The verdict is the disjunction of the four checks, and the reason
    string names exactly the checks that tripped: no tag is mistaken for
    another one, although "(Precipitation Forecast) " and
    "(Precipitation Forecast + History) " begin alike. *)
Theorem wx_flags_reasons wxd wx_status :
  (wx_flags wxd wx_status).1 =
    history_trips wxd wx_status || forecast_trips wxd wx_status ||
    temperature_trips wxd wx_status || forecast_history_trips wxd wx_status /\
  mentions tag_history (wx_flags wxd wx_status).2 = history_trips wxd wx_status /\
  mentions tag_forecast (wx_flags wxd wx_status).2 = forecast_trips wxd wx_status /\
  mentions tag_temperature (wx_flags wxd wx_status).2 =
    temperature_trips wxd wx_status /\
  mentions tag_forecast_history (wx_flags wxd wx_status).2 =
    forecast_history_trips wxd wx_status.
Proof. apply wx_flags_checks. Qed.

(** The run is cancelled exactly when there is a reason to log. *)
Theorem wx_cancel_iff_reason wxd wx_status :
  (wx_flags wxd wx_status).1 = true <-> (wx_flags wxd wx_status).2 <> "".
Proof.
  unfold wx_flags.
  fold (history_trips wxd wx_status) (forecast_trips wxd wx_status)
       (temperature_trips wxd wx_status) (forecast_history_trips wxd wx_status).
  destruct (history_trips _ _), (forecast_trips _ _), (temperature_trips _ _),
    (forecast_history_trips _ _); cbn; split; (done || discriminate).
Qed.

Lemma Qltb_lt a b : Qltb a b = true <-> (a < b)%Q.
Proof.
  unfold Qltb. rewrite negb_true_iff, <- not_true_iff_false, Qle_bool_iff.
  split; [apply Qnot_le_lt|apply Qlt_not_le].
Qed.

Lemma Qgtb_gt a b : Qgtb a b = true <-> (b < a)%Q.
Proof.
  unfold Qgtb. rewrite negb_true_iff, <- not_true_iff_false, Qle_bool_iff.
  split; [apply Qnot_le_lt|apply Qlt_not_le].
Qed.

(** The temperature check, when enabled, trips exactly outside the closed
    range from min_temp to max_temp: the limits themselves are allowed. *)
Theorem temperature_range wxd wx_status :
  temp_enable wxd = true ->
  (mentions tag_temperature (wx_flags wxd wx_status).2 = false <->
   (min_temp wxd <= temp_current wx_status)%Q /\
   (temp_current wx_status <= max_temp wxd)%Q) /\
  (~ ((min_temp wxd <= temp_current wx_status)%Q /\
      (temp_current wx_status <= max_temp wxd)%Q) ->
   (wx_flags wxd wx_status).1 = true).
Proof.
  intros Hen.
  destruct (wx_flags_checks wxd wx_status) as (Hc & _ & _ & Ht & _).
  assert (Htr : temperature_trips wxd wx_status = false <->
                (min_temp wxd <= temp_current wx_status)%Q /\
                (temp_current wx_status <= max_temp wxd)%Q).
  { unfold temperature_trips. rewrite Hen. cbn [andb].
    rewrite orb_false_iff, <- !not_true_iff_false, Qltb_lt, Qgtb_gt.
    split; intros [H1 H2].
    - split; by apply Qnot_lt_le.
    - split; by apply Qle_not_lt. }
  rewrite Ht. split; [done|].
  intros Hout. rewrite Hc.
  destruct (temperature_trips wxd wx_status); [by rewrite !orb_true_r|].
  destruct Hout. by apply Htr.
Qed.

Lemma temperature_range_witness :
  mentions tag_temperature (wx_flags ex_wx_data (mkWxStatus 40 0 0)).2 = false.
Proof.
  apply (proj1 (temperature_range ex_wx_data (mkWxStatus 40 0 0) eq_refl)).
  split; by vm_compute.
Defined.

(** ** The setup phase, event by event *)

(** The setup reads the document once, writes it back with
    controls.active set, constructs the platform object and logs at most
    one line of weather values and the force line. *)
Lemma setup_trace env args w :
  exists v w1 dr wxl,
    setup env args w = Ok v w1 /\
    same_config (file w) dr /\
    v_json_data_dict v = set_active true dr /\
    reads w1 = S (reads w) /\ clock w1 = clock w /\
    emitted w w1 =
      [WriteLog LogStarting; ReadDoc dr; WriteDoc (set_active true dr);
       WriteLog (LogInitPlatform (select_platform (target_sys (settings (file w)))));
       PlatformNew (<["gate" := zone_gate (settings (file w))]>
                      (GPIO_mapping <$> zonemap (file w)))
                   (relay_trigger (settings (file w)))] ++
      wxl ++ (if arg_force args then [WriteLog LogForce] else []) /\
    (wx_file env = None -> wxl = []) /\
    (wxl = [] \/ exists t h f, wxl = [WriteLog (LogWxValues t h f)]).
Proof.
  unfold setup, setup_with. rewrite !bind_lift, bind_mret. cbn [fst snd].
  destruct (ReadJSON_spec env (write_log LogStarting w).2) as (Ht & Hf & Hc & Hr & Hck & Hrd).
  cbn zeta in *.
  destruct (ReadJSON env _) as [dr w0]. cbn [fst snd] in *.
  change (file (write_log LogStarting w).2) with (file w) in Hc.
  assert (Hzm : zonemap (set_active true dr) = zonemap (file w)) by (by rewrite Hc).
  assert (Hst : settings (set_active true dr) = settings (file w)) by (by rewrite Hc).
  assert (Hst' : settings dr = settings (file w)) by (by rewrite Hc).
  rewrite Hzm, Hst, Hst'.
  assert (Hnone : wx_file env = None -> negb ((checkweather env).2 =? 0) = true).
  { unfold checkweather. by intros ->. }
  assert (Hem : forall w1 evs,
            trace w1 = (trace w0 ++ [WriteDoc (set_active true dr)]) ++ evs ->
            emitted w w1 =
              [WriteLog LogStarting; ReadDoc dr; WriteDoc (set_active true dr)] ++ evs).
  { intros w1 evs Hw1. apply emitted_app. rewrite Hw1, Ht. cbn.
    by rewrite <- !app_assoc. }
  destruct (negb _) eqn:Hneg; [|destruct (_ || _)]; rewrite ?bind_lift, ?bind_mret.
  - destruct (arg_force args); rewrite ?bind_lift, ?bind_mret;
      (eexists _, _, dr, []; (split; [reflexivity|]); cbn [v_json_data_dict];
       split_and!; [done|done|done|done| |done|by left];
       erewrite Hem; [reflexivity|cbn; by rewrite <- ?app_assoc]).
  - destruct (arg_force args); rewrite ?bind_lift, ?bind_mret;
      (eexists _, _, dr, [WriteLog (LogWxValues _ _ _)];
       (split; [reflexivity|]); cbn [v_json_data_dict];
       split_and!; [done|done|done|done| |by intros ?%Hnone|by right; eexists _, _, _];
       erewrite Hem; [reflexivity|cbn; by rewrite <- ?app_assoc]).
  - destruct (arg_force args); rewrite ?bind_lift, ?bind_mret;
      (eexists _, _, dr, []; (split; [reflexivity|]); cbn [v_json_data_dict];
       split_and!; [done|done|done|done| |done|by left];
       erewrite Hem; [reflexivity|cbn; by rewrite <- ?app_assoc]).
Qed.

(** Every run is the setup followed by events of the tree and of the
    closing phase. *)
Lemma main_emitted_split env args w :
  exists v w1 rest,
    setup env args w = Ok v w1 /\
    emitted w (world_of (main env args w)) = emitted w w1 ++ rest /\
    Forall (fun e => tree_event (arg_force args) e \/ finish_event e) rest.
Proof.
  destruct (setup_spec env args w)
    as (v & w1 & pre & Hs & Ht & Hp & _ & _ & _ & _ & Hf & _).
  destruct (emits_decision_tree env v w1) as (body & Htb & Hb).
  rewrite Hf in Hb.
  exists v, w1. rewrite (emitted_app _ _ _ Ht).
  unfold main. rewrite bind_eq, Hs, bind_eq.
  destruct (decision_tree env v w1) as [[d ec] w2|ex w2]; cbn in Htb.
  - destruct (finish_spec d ec w2) as (w' & -> & Ht' & Hf').
    eexists. split; [done|]. split.
    + apply emitted_app. cbn. rewrite Ht', Htb, Ht, <- !app_assoc. reflexivity.
    + apply Forall_app. split; [eapply Forall_impl; eauto|].
      repeat constructor; by right.
  - exists body. split; [done|]. split.
    + apply emitted_app. cbn. by rewrite Htb, Ht, <- !app_assoc.
    + eapply Forall_impl; eauto.
Qed.


Lemma log_trace_app t1 t2 : log_trace (t1 ++ t2) = log_trace t1 ++ log_trace t2.
Proof. apply omap_app. Qed.



(** When wx_status.json cannot be read, the log holds no line of weather
    values: the failure message is composed but never written. *)
Theorem weather_failure_not_logged env args w t h f :
  wx_file env = None ->
  WriteLog (LogWxValues t h f) ∉ emitted w (world_of (main env args w)).
Proof.
  intros Hnone.
  destruct (main_emitted_split env args w) as (v & w1 & rest & Hs & He & Hrest).
  destruct (setup_trace env args w)
    as (v' & w1' & dr & wxl & Hs' & _ & _ & _ & _ & Hpre & Hwx & _).
  rewrite Hs in Hs'. injection Hs' as <- <-.
  rewrite He, Hpre, (Hwx Hnone). rewrite !elem_of_app, !elem_of_cons.
  rewrite Forall_forall in Hrest.
  intros [[Hp|[Hnil|Hf]]|Hin].
  - destruct Hp as [?|[?|[?|[?|[?|Hnil]]]]]; try done. by apply elem_of_nil in Hnil.
  - by apply elem_of_nil in Hnil.
  - destruct (arg_force args); [|by apply elem_of_nil in Hf].
    by apply list_elem_of_singleton in Hf.
  - destruct (Hrest _ Hin) as [[?|[?|(_ & ? & ?)]]|?]; done.
Qed.

Lemma weather_failure_not_logged_witness :
  WriteLog (LogWxValues None None None) ∉
    emitted ex_world
      (world_of (main (mkEnv (fun _ => None) (fun _ => 0) None (fun _ => 1%Q))
                      ex_args_morning ex_world)).
Proof.
  apply (weather_failure_not_logged (mkEnv (fun _ => None) (fun _ => 0) None (fun _ => 1%Q))
           ex_args_morning ex_world None None None).
  reflexivity.
Defined.

Lemma scheduled_zones_ext d d' sched :
  zonemap d' = zonemap d -> scheduled_zones d' sched = scheduled_zones d sched.
Proof.
  intros Hzm. unfold scheduled_zones. f_equal. apply included_ext. by rewrite Hzm.
Qed.

(** A run of an existing schedule whose entries all name zones of the
    zone map and of which none is included (every entry has a disabled
    zone or the duration 0, or there is no entry at all) calls no relay
    and ends with the code of the weather read: 0, or 6 when
    wx_status.json could not be read. *)
Theorem empty_schedule_run env args w sched :
  arg_init args = false ->
  truthy (arg_schedule args) = true ->
  (arg_force args = true \/ weather_cancel env w = false) ->
  schedules (file w) !! requested_schedule args = Some sched ->
  dom (zones sched) ⊆ dom (zonemap (file w)) ->
  scheduled_zones (file w) sched = [] ->
  exists w',
    main env args w = Ok (match wx_file env with Some _ => 0 | None => 6 end) w' /\
    relay_trace (emitted w w') = [].
Proof.
  intros Hinit Hsched Hgo Hs Hdom Hempty.
  assert (Hor : negb (weather_cancel env w) || arg_force args = true).
  { destruct Hgo as [Hg|Hg]; rewrite Hg; by rewrite ?orb_true_r. }
  destruct (setup_flags env args w)
    as (v & w1 & Hsetup & Hi & Hf & Hr & Hsel & _ & _ & _ & He & Hc & _ & Hzm & Hsc & _).
  rewrite <- Hsc, <- Hsel in Hs. rewrite <- Hzm in Hdom.
  rewrite <- (scheduled_zones_ext _ _ sched Hzm) in Hempty.
  destruct (schedule_run_spec env (v_relay_trigger v) (v_schedule_selected v)
              (v_json_data_dict v) (v_errorcode v) w1 sched Hs Hdom)
    as (d1 & ec1 & w2 & sched1 & evs & _ & _ & Hbranch & Ht & Hrel & Hnil).
  rewrite (Hnil Hempty) in Hbranch.
  assert (Htree : decision_tree env v w1 =
            schedule_run_branch env (v_relay_trigger v) (v_schedule_selected v)
              (v_json_data_dict v) (v_errorcode v) w1).
  { unfold decision_tree.
    by rewrite select_branch_cases, Hi, Hinit, Hf, Hr, Hsched, Hc, Hor. }
  rewrite <- Htree in Hbranch.
  destruct (main_after_tree env args w v w1 _ _ Hsetup Hbranch) as (w' & Hmain & Hrt).
  exists w'. split.
  - rewrite Hmain. cbn [snd]. rewrite He. unfold checkweather.
    by destruct (wx_file env).
  - rewrite Hrt, (relay_trace_emitted_setup _ _ _ _ _ Hsetup). cbn [app].
    erewrite emitted_app; [|cbn; rewrite Ht, <- !app_assoc; reflexivity].
    rewrite !relay_trace_app, Hrel, Hempty. done.
Qed.

Lemma empty_schedule_run_witness :
  exists w',
    main (mkEnv (fun _ => None) (fun _ => 0) None (fun _ => 1%Q))
         (mkArgs None None (Some "idle") true false)
         (mkWorld (set_schedules {[ "idle" := mkSchedule false
                                      {[ "garden" := mkZoneEntry 5;
                                         "backyard" := mkZoneEntry 0 ]} ]} ex_doc)
                  0 0 0 []) = Ok 6 w' /\
    relay_trace
      (emitted (mkWorld (set_schedules {[ "idle" := mkSchedule false
                                            {[ "garden" := mkZoneEntry 5;
                                               "backyard" := mkZoneEntry 0 ]} ]} ex_doc)
                        0 0 0 []) w') = [].
Proof.
  apply (empty_schedule_run (mkEnv (fun _ => None) (fun _ => 0) None (fun _ => 1%Q))
           (mkArgs None None (Some "idle") true false) _
           (mkSchedule false {[ "garden" := mkZoneEntry 5; "backyard" := mkZoneEntry 0 ]})).
  - reflexivity.
  - reflexivity.
  - left. reflexivity.
  - reflexivity.
  - apply (bool_decide_unpack _). by vm_compute.
  - by vm_compute.
Defined.

(** ** What the script writes to the settings file *)

Lemma static_same_config d d' : same_config d d' -> static d' = static d.
Proof. by intros ->. Qed.

Lemma steady_same_config d0 d d' : same_config d d' -> steady d0 d -> steady d0 d'.
Proof.
  intros Hc [Hs Ha]. split; [by rewrite (static_same_config _ _ Hc)|].
  rewrite Hc. exact Ha.
Qed.

Lemma steady_mark_zone d0 d k b z :
  zonemap d !! k = Some z -> steady d0 d -> steady d0 (mark_zone k b z d).
Proof.
  intros Hz [Hs Ha]. split; [|exact Ha]. rewrite <- Hs.
  unfold static, mark_zone. cbn. f_equal. f_equal.
  rewrite fmap_insert. apply insert_id. by rewrite lookup_fmap, Hz.
Qed.

Lemma steady_mark_schedule d0 d s b sched :
  schedules d !! s = Some sched -> steady d0 d -> steady d0 (mark_schedule s b sched d).
Proof.
  intros Hz [Hs Ha]. split; [|exact Ha]. rewrite <- Hs.
  unfold static, mark_schedule. cbn. f_equal.
  rewrite fmap_insert. apply insert_id. by rewrite lookup_fmap, Hz.
Qed.

Lemma keeps_mret {A} d0 (Q : A -> Prop) a : Q a -> keeps d0 Q (mret a).
Proof.
  intros HQ w Hw. exists []. rewrite app_nil_r. split_and!; [done..|].
  by intros ? ? [= <- _].
Qed.

Lemma keeps_bind {A B} d0 (Q : A -> Prop) (R : B -> Prop) (m : M A) (k : A -> M B) :
  keeps d0 Q m -> (forall a, Q a -> keeps d0 R (k a)) -> keeps d0 R (m ≫= k).
Proof.
  intros Hm Hk w Hw. rewrite bind_eq.
  destruct (Hm w Hw) as (evs1 & Ht1 & Hp1 & Hs1 & HQ).
  destruct (m w) as [a w1|e w1]; cbn in *.
  - destruct (Hk a (HQ a w1 eq_refl) w1 Hs1) as (evs2 & Ht2 & Hp2 & Hs2 & HR).
    exists (evs1 ++ evs2). rewrite Ht2, Ht1, app_assoc.
    split_and!; [done|by apply Forall_app|done|done].
  - exists evs1. split_and!; [done..|]. intros ? ? [=].
Qed.

Lemma keeps_getitem {V} d0 (m : gmap string V) key :
  keeps d0 (fun v => m !! key = Some v) (getitem m key).
Proof.
  intros w Hw. exists []. rewrite app_nil_r. unfold getitem.
  destruct (m !! key); (split_and!; [done..|]).
  - by intros ? ? [= <- _].
  - intros ? ? [=].
Qed.

Lemma keeps_write_log d0 l : keeps d0 (fun _ => True) (lift (write_log l)).
Proof.
  intros w Hw. exists [WriteLog l]. cbn.
  split_and!; [done|by repeat constructor|done|done].
Qed.

Lemma keeps_WriteJSON d0 d :
  steady d0 d -> keeps d0 (fun _ => True) (lift (WriteJSON d)).
Proof.
  intros Hd w Hw. exists [WriteDoc d]. cbn.
  split_and!; [done|constructor; [exact Hd|constructor]|done|done].
Qed.

Lemma keeps_ReadJSON env d0 : keeps d0 (steady d0) (lift (ReadJSON env)).
Proof.
  intros w Hw. destruct (ReadJSON_spec env w) as (Ht & Hf & Hc & _).
  cbn zeta in *. unfold lift. destruct (ReadJSON env w) as [d w1]; cbn in *.
  assert (Hd : steady d0 d) by eauto using steady_same_config.
  exists [ReadDoc d]. split_and!; [done|by repeat constructor|by rewrite Hf|].
  by intros ? ? [= <- _].
Qed.

Lemma keeps_Irrigate env d0 zonename duration relay_trigger :
  keeps d0 (fun _ => True) (lift (Irrigate env zonename duration relay_trigger)).
Proof.
  intros w Hw. unfold lift.
  destruct (Irrigate_spec env zonename duration relay_trigger w)
    as (evs & d & Ht & Hp & Hf & Hc & _).
  destruct (Irrigate _ _ _ _ w) as [ec w']; cbn in *.
  eexists. split; [exact Ht|]. split_and!; [|rewrite Hf; eauto using steady_same_config|done].
  do 2 (constructor; [done|]). apply Forall_app. split; [|by repeat constructor].
  eapply Forall_impl; [exact Hp|]. by intros [].
Qed.

Lemma keeps_zone_loop env d0 relay_trigger items :
  forall d errorcode,
    steady d0 d ->
    keeps d0 (fun r => steady d0 r.1) (zone_loop env relay_trigger items d errorcode).
Proof.
  induction items as [|[k e] rest IH]; intros d errorcode Hd; cbn [zone_loop].
  - by apply keeps_mret.
  - eapply keeps_bind; [apply keeps_getitem|]. intros z Hz. cbn beta in Hz.
    destruct (_ && _); [|by apply IH].
    eapply keeps_bind; [by apply keeps_WriteJSON, steady_mark_zone|]. intros _ _.
    eapply keeps_bind; [apply keeps_Irrigate|]. intros ec _.
    eapply keeps_bind; [apply keeps_ReadJSON|]. intros d' Hd'.
    eapply keeps_bind; [apply keeps_getitem|]. intros z' Hz'. cbn beta in Hz'.
    eapply keeps_bind; [by apply keeps_WriteJSON, steady_mark_zone|]. intros _ _.
    by apply IH, steady_mark_zone.
Qed.

Lemma keeps_schedule_run_branch env d0 relay_trigger s d errorcode :
  steady d0 d ->
  keeps d0 (fun r => steady d0 r.1) (schedule_run_branch env relay_trigger s d errorcode).
Proof.
  intros Hd. unfold schedule_run_branch.
  eapply keeps_bind; [apply keeps_write_log|]. intros _ _.
  destruct (schedules d !! s) as [sched|] eqn:Hs.
  - eapply keeps_bind; [apply keeps_write_log|]. intros _ _.
    eapply keeps_bind; [by apply keeps_WriteJSON, steady_mark_schedule|]. intros _ _.
    eapply keeps_bind; [by apply keeps_zone_loop, steady_mark_schedule|].
    intros [d' ec] Hd'. cbn in Hd'.
    eapply keeps_bind; [apply keeps_getitem|]. intros sched' Hs'. cbn beta in Hs'.
    eapply keeps_bind; [by apply keeps_WriteJSON, steady_mark_schedule|]. intros _ _.
    by apply keeps_mret, steady_mark_schedule.
  - eapply keeps_bind; [apply keeps_write_log|]. intros _ _. by apply keeps_mret.
Qed.

Lemma keeps_manual_run_branch env d0 relay_trigger zone duration d :
  steady d0 d ->
  keeps d0 (fun r => steady d0 r.1) (manual_run_branch env relay_trigger zone duration d).
Proof.
  intros Hd. unfold manual_run_branch.
  eapply keeps_bind; [apply keeps_write_log|]. intros _ _.
  destruct (zonemap d !! zone) as [z|] eqn:Hz.
  - eapply keeps_bind; [by apply keeps_WriteJSON, steady_mark_zone|]. intros _ _.
    eapply keeps_bind; [apply keeps_Irrigate|]. intros ec _.
    eapply keeps_bind; [apply keeps_getitem|]. intros z' Hz'. cbn beta in Hz'.
    assert (Hd1 : steady d0 (mark_zone zone true z d)) by (by apply steady_mark_zone).
    eapply keeps_bind; [by apply keeps_WriteJSON, steady_mark_zone|]. intros _ _.
    by apply keeps_mret, steady_mark_zone.
  - eapply keeps_bind; [apply keeps_write_log|]. intros _ _. by apply keeps_mret.
Qed.

Lemma keeps_decision_tree env d0 v :
  steady d0 (v_json_data_dict v) ->
  keeps d0 (fun r => steady d0 r.1) (decision_tree env v).
Proof.
  intros Hd. unfold decision_tree.
  destruct (select_branch _ _ _ _);
    try (eapply keeps_bind; [apply keeps_write_log|]; intros _ _; by apply keeps_mret).
  - by apply keeps_schedule_run_branch.
  - by apply keeps_manual_run_branch.
Qed.

Lemma write_trace_app t1 t2 : write_trace (t1 ++ t2) = write_trace t1 ++ write_trace t2.
Proof. apply omap_app. Qed.

Lemma write_trace_steady d0 evs :
  Forall (write_steady d0) evs -> Forall (steady d0) (write_trace evs).
Proof.
  induction 1 as [|e ? He ? IH]; [constructor|].
  destruct e; cbn; try exact IH. by constructor.
Qed.

(** Every run in two parts: the run proper, which writes steady documents
    only and calls no cleanup, and the closing phase, which is missing
    when the run raised. *)
Lemma main_writes env args w :
  exists during closing,
    emitted w (world_of (main env args w)) = during ++ closing /\
    Forall (write_steady (file w)) during /\
    write_trace during <> [] /\
    cleanup_trace during = [] /\
    (closing = [] \/
     exists errorcode d,
       closing = [Cleanup; WriteLog (LogExiting errorcode); WriteLog LogEnded;
                  WriteDoc (set_manual_override false (set_active false d))] /\
       steady (file w) d).
Proof.
  destruct (setup_trace env args w)
    as (v & w1 & dr & wxl & Hs & Hc & Hv & _ & _ & Hpre & _ & Hwx).
  destruct (setup_flags env args w) as (v' & w1' & Hs' & _).
  rewrite Hs in Hs'. injection Hs' as <- <-.
  destruct (setup_flags env args w)
    as (v' & w1' & Hs' & _ & _ & _ & _ & _ & _ & _ & _ & _ & _ & _ & _ & Hf1).
  rewrite Hs in Hs'. injection Hs' as <- <-.
  assert (Hdr : steady (file w) (set_active true dr)).
  { split; [|done]. rewrite Hc. by destruct (file w) as [? ? ? []]. }
  assert (Hpre_ok : Forall (write_steady (file w)) (emitted w w1)).
  { rewrite Hpre. repeat (apply Forall_app; split).
    - repeat (apply Forall_cons; split; [first [exact Hdr|exact I]|]).
      apply Forall_nil_2.
    - destruct Hwx as [->|(t & h & f & ->)];
        repeat (apply Forall_cons; split; [exact I|]); apply Forall_nil_2.
    - destruct (arg_force args);
        repeat (apply Forall_cons; split; [exact I|]); apply Forall_nil_2. }
  assert (Hpre_w : write_trace (emitted w w1) <> []).
  { rewrite Hpre. by cbn. }
  assert (Hpre_c : cleanup_trace (emitted w w1) = []).
  { rewrite Hpre. unfold cleanup_trace. rewrite !omap_app. cbn.
    destruct Hwx as [->|(t & h & f & ->)]; by destruct (arg_force args). }
  assert (Hw1 : steady (file w) (file w1)) by (by rewrite Hf1, Hv).
  destruct (keeps_decision_tree env (file w) v) with (w := w1)
    as (body & Htb & Hb & Hfile & HQ); [by rewrite Hv|done|].
  destruct (emits_decision_tree env v w1) as (body' & Htb' & Hb').
  assert (body' = body) as -> by (rewrite Htb in Htb'; by apply app_inv_head in Htb').
  assert (Hbody_c : cleanup_trace body = []).
  { eapply cleanup_trace_none; [|exact Hb']. apply tree_event_not_cleanup. }
  assert (Htw1 : trace w1 = trace w ++ emitted w w1).
  { destruct (setup_spec env args w) as (v' & w1' & pre & Hs' & Ht & _).
    rewrite Hs in Hs'. injection Hs' as <- <-. by rewrite (emitted_app _ _ _ Ht). }
  unfold main. rewrite bind_eq, Hs, bind_eq.
  destruct (decision_tree env v w1) as [[d ec] w2|ex w2] eqn:Htree; cbn in Htb.
  - destruct (finish_spec d ec w2) as (w' & -> & Ht' & Hf').
    exists (emitted w w1 ++ body), [Cleanup; WriteLog (LogExiting ec); WriteLog LogEnded;
                                    WriteDoc (set_manual_override false (set_active false d))].
    split_and!.
    + apply emitted_app. cbn. rewrite Ht', Hf', Htb, Htw1, <- !app_assoc. reflexivity.
    + by apply Forall_app.
    + rewrite write_trace_app. by destruct (write_trace (emitted w w1)).
    + unfold cleanup_trace. rewrite omap_app.
      fold (cleanup_trace (emitted w w1)) (cleanup_trace body).
      by rewrite Hpre_c, Hbody_c.
    + right. exists ec, d. split; [done|]. exact (HQ _ _ eq_refl).
  - exists (emitted w w1 ++ body), []. rewrite app_nil_r. split_and!.
    + apply emitted_app. cbn. by rewrite Htb, Htw1, <- !app_assoc.
    + by apply Forall_app.
    + rewrite write_trace_app. by destruct (write_trace (emitted w w1)).
    + unfold cleanup_trace. rewrite omap_app.
      fold (cleanup_trace (emitted w w1)) (cleanup_trace body).
      by rewrite Hpre_c, Hbody_c.
    + by left.
Qed.

(** Whatever the run does, every document it writes to the settings file
    has the settings, the weather configuration, the pins and enabled
    flags of the zones and the entries of the schedules of the file it
    started from: the script changes activity flags only. *)
Theorem main_keeps_configuration env args w d :
  d ∈ write_trace (emitted w (world_of (main env args w))) ->
  static d = static (file w).
Proof.
  destruct (main_writes env args w) as (during & closing & -> & Hd & _ & _ & Hcl).
  rewrite write_trace_app, elem_of_app. intros [Hin|Hin].
  - apply write_trace_steady in Hd. rewrite Forall_forall in Hd. by apply Hd.
  - destruct Hcl as [->|(ec & d' & -> & Hs & _)]; [by apply elem_of_nil in Hin|].
    cbn in Hin. apply list_elem_of_singleton in Hin as ->. by rewrite <- Hs.
Qed.

Lemma main_keeps_configuration_witness :
  static (file (world_of (main ex_env ex_args_morning ex_world))) = static (file ex_world).
Proof.
  apply (main_keeps_configuration ex_env ex_args_morning ex_world).
  vm_compute. apply list_elem_of_In, List.in_rev. left. reflexivity.
Defined.

(** From its first write to the call of cleanup the script keeps
    controls.active set in the file: every document written before the
    closing phase has the flag, there is at least one such write, and
    the closing write, when the run gets there, is the only one that
    clears it. *)
Theorem main_active_until_closing env args w :
  exists during closing,
    emitted w (world_of (main env args w)) = during ++ closing /\
    write_trace during <> [] /\
    Forall (fun d => active (controls d) = true) (write_trace during) /\
    cleanup_trace during = [] /\
    (closing = [] \/
     exists errorcode d,
       closing = [Cleanup; WriteLog (LogExiting errorcode); WriteLog LogEnded;
                  WriteDoc d] /\
       active (controls d) = false /\ manual_override (controls d) = false).
Proof.
  destruct (main_writes env args w) as (during & closing & He & Hd & Hne & Hc & Hcl).
  exists during, closing. split_and!; [done|done| |done|].
  - apply write_trace_steady in Hd. eapply Forall_impl; [exact Hd|]. by intros ? [_ ?].
  - destruct Hcl as [->|(ec & d & -> & _)]; [by left|]. right. by eexists _, _.
Qed.

(** ** The active flags of zones and schedules *)

Lemma write_trace_poll evs : Forall poll_event evs -> write_trace evs = [].
Proof. induction 1 as [|[] ? ? ? IH]; cbn in *; auto; done. Qed.

(** One turn of the zone loop for an included entry, with the documents
    it writes: the zone is marked active before Irrigate runs and marked
    inactive after it returned and the document was read again. *)
Lemma zone_loop_step_doc env relay_trigger k e rest d errorcode w z :
  file w = d ->
  zonemap d !! k = Some z ->
  enabled z = true -> duration e <> 0 ->
  exists d' w' ievs dr,
    zone_loop env relay_trigger ((k, e) :: rest) d errorcode w =
      zone_loop env relay_trigger rest d'
        (Irrigate env k (duration e) relay_trigger
           (WriteJSON (mark_zone k true z d) w).2).1
        w' /\
    file w' = d' /\
    zonemap d' = <[k := with_zone_active false z]> (zonemap d) /\
    trace w' = trace w ++ [WriteDoc (mark_zone k true z d)] ++ ievs ++
               [ReadDoc dr; WriteDoc d'] /\
    relay_trace ievs = onoff relay_trigger k /\
    write_trace ievs = [].
Proof.
  intros Hf Hz He Hd. cbn [zone_loop]. rewrite (bind_getitem_Some _ _ _ _ _ Hz).
  rewrite He. destruct (Z.eqb_spec (duration e) 0) as [|_]; [done|]. cbn [andb negb bool_decide].
  rewrite bool_decide_eq_true_2 by done. cbn [andb].
  rewrite !bind_lift.
  set (d1 := mark_zone k true z d).
  set (w1 := (WriteJSON d1 w).2).
  destruct (Irrigate_spec env k (duration e) relay_trigger w1)
    as (ievs & dI & HtI & HpI & HfI & HcI & _).
  cbn zeta in HtI, HfI.
  set (rI := Irrigate env k (duration e) relay_trigger w1) in *.
  destruct (ReadJSON_spec env rI.2) as (Ht2 & Hf2 & Hc2 & _).
  cbn zeta in Ht2, Hf2, Hc2.
  set (r2 := ReadJSON env rI.2) in *.
  assert (Hc12 : same_config d1 r2.1).
  { rewrite HfI in Hc2. eauto using same_config_trans. }
  pose proof (same_config_zonemap _ _ Hc12) as Hzm12.
  clearbody r2 rI.
  assert (Hz2 : zonemap r2.1 !! k = Some (with_zone_active true z)).
  { rewrite Hzm12. cbn. apply lookup_insert_eq. }
  rewrite (bind_getitem_Some _ _ _ _ _ Hz2), bind_lift.
  eexists _, _,
    ([WriteLog (LogTurningOn k (duration e)); SetRelay relay_trigger k] ++ ievs ++
     [WriteLog (LogTurningOff k); SetRelay (py_not relay_trigger) k; ReadDoc dI]), r2.1.
  split; [reflexivity|]. cbn [fst snd].
  split_and!.
  - reflexivity.
  - unfold mark_zone at 1. cbn. rewrite Hzm12. cbn. by rewrite insert_insert_eq.
  - cbn [WriteJSON trace snd]. rewrite Ht2, HtI. cbn [WriteJSON trace snd w1].
    by rewrite <- !app_assoc.
  - rewrite !relay_trace_app, (relay_trace_poll _ HpI). reflexivity.
  - rewrite !write_trace_app, (write_trace_poll _ HpI). reflexivity.
Qed.

(** The zone map the loop ends with: the zones that ran are marked
    inactive, the other entries are as they were. *)
Lemma zone_loop_zonemap env relay_trigger items :
  forall d errorcode w,
    file w = d ->
    (forall it, it ∈ items -> is_Some (zonemap d !! it.1)) ->
    exists d' errorcode' w',
      zone_loop env relay_trigger items d errorcode w = Ok (d', errorcode') w' /\
      forall k, zonemap d' !! k =
        if decide (k ∈ (included d items).*1)
        then with_zone_active false <$> zonemap d !! k
        else zonemap d !! k.
Proof.
  induction items as [|[k0 e] rest IH]; intros d errorcode w Hf Hin.
  - exists d, errorcode, w. split; [done|]. intros k. cbn.
    rewrite decide_False; [done|]. apply not_elem_of_nil.
  - destruct (Hin (k0, e)) as [z Hz]; [set_solver|]. cbn in Hz.
    assert (Hen : zone_enabled d k0 = enabled z) by (unfold zone_enabled; by rewrite Hz).
    destruct (decide (enabled z = true /\ duration e <> 0)) as [[He Hd]|Hn].
    + destruct (zone_loop_step_doc env relay_trigger k0 e rest d errorcode w z)
        as (d1 & w1 & ievs & dr & -> & Hf1 & Hzm1 & _); [done..|].
      assert (Hen1 : enabled <$> zonemap d1 = enabled <$> zonemap d).
      { rewrite Hzm1, fmap_insert. apply insert_id. by rewrite lookup_fmap, Hz. }
      destruct (IH d1 (Irrigate env k0 (duration e) relay_trigger
                         (WriteJSON (mark_zone k0 true z d) w).2).1 w1)
        as (d' & ec' & w' & -> & Hk); [done|..].
      { intros it Hit. apply (is_Some_zonemap_ext d d1); [done|]. apply Hin. set_solver. }
      exists d', ec', w'. split; [done|]. intros k. rewrite Hk.
      assert (Hinc : included d ((k0, e) :: rest) = (k0, e) :: included d rest).
      { unfold included. by rewrite filter_cons_True by (cbn; by rewrite Hen). }
      rewrite (included_ext _ _ _ Hen1), Hinc, fmap_cons. cbn [fst]. rewrite Hzm1.
      destruct (decide (k = k0)) as [->|Hne].
      * rewrite lookup_insert_eq, Hz.
        rewrite (decide_True (P := k0 ∈ k0 :: _)) by (apply elem_of_cons; by left).
        by case_decide.
      * rewrite lookup_insert_ne by done.
        destruct (decide (k ∈ (included d rest).*1)) as [Hr|Hr].
        -- rewrite decide_True; [done|]. apply elem_of_cons. by right.
        -- rewrite decide_False; [done|]. by intros [?|?]%elem_of_cons.
    + rewrite (zone_loop_skip _ _ _ _ _ _ _ _ _ Hz Hn).
      destruct (IH d errorcode w) as (d' & ec' & w' & -> & Hk); [done|set_solver|].
      exists d', ec', w'. split; [done|]. intros k. rewrite Hk.
      unfold included. by rewrite filter_cons_False by (cbn; by rewrite Hen).
Qed.

(** After a run of an existing schedule whose zones are all in the zone
    map, the document the script goes on with has the schedule marked
    inactive, every zone that ran marked inactive, and every other zone
    entry as it was before the run. *)
Theorem schedule_run_leaves_inactive env relay_trigger s d errorcode w sched :
  schedules d !! s = Some sched ->
  dom (zones sched) ⊆ dom (zonemap d) ->
  exists d' errorcode' w',
    schedule_run_branch env relay_trigger s d errorcode w = Ok (d', errorcode') w' /\
    file w' = d' /\
    start_time_active <$> schedules d' !! s = Some false /\
    (forall k, k ∈ scheduled_zones d sched ->
       zone_active <$> zonemap d' !! k = Some false) /\
    (forall k, k ∉ scheduled_zones d sched -> zonemap d' !! k = zonemap d !! k).
Proof.
  intros Hs Hdom.
  destruct (schedule_run_spec env relay_trigger s d errorcode w sched Hs Hdom)
    as (d1 & ec1 & w1 & sched1 & evs & Hloop & Hs1 & Hrun & _).
  destruct (zone_loop_zonemap env relay_trigger (sorted_items (zones sched))
              (mark_schedule s true sched d) errorcode
              (WriteJSON (mark_schedule s true sched d)
                 (write_log (LogScheduleFound s)
                    (write_log (LogScheduleSelected s) w).2).2).2)
    as (d1' & ec1' & w1' & Hloop' & Hk); [done|by apply items_in_zonemap|].
  rewrite Hloop in Hloop'. injection Hloop' as <- <- <-.
  eexists _, _, _. split; [exact Hrun|]. split_and!.
  - reflexivity.
  - cbn. by rewrite lookup_insert_eq.
  - intros k Hin. cbn. rewrite Hk. fold (scheduled_zones (mark_schedule s true sched d) sched).
    rewrite (scheduled_zones_ext d _ sched) by done.
    rewrite decide_True by done.
    apply scheduled_zones_spec in Hin as (z & e & Hz & _). cbn. by rewrite Hz.
  - intros k Hnin. cbn. rewrite Hk.
    fold (scheduled_zones (mark_schedule s true sched d) sched).
    rewrite (scheduled_zones_ext d _ sched) by done.
    by rewrite decide_False.
Qed.

Lemma schedule_run_leaves_inactive_witness :
  exists d' errorcode' w',
    schedule_run_branch ex_env 0 "morning" ex_doc 0 ex_world = Ok (d', errorcode') w' /\
    file w' = d' /\
    start_time_active <$> schedules d' !! "morning" = Some false.
Proof.
  destruct (schedule_run_leaves_inactive ex_env 0 "morning" ex_doc 0 ex_world
              (mkSchedule false
                 {[ "frontlawn" := mkZoneEntry 1; "garden" := mkZoneEntry 2;
                    "backyard" := mkZoneEntry 1 ]}))
    as (d' & ec' & w' & Hrun & Hf & Hs & _).
  - reflexivity.
  - apply (bool_decide_unpack _). by vm_compute.
  - exists d', ec', w'. split; [exact Hrun|]. split; [exact Hf|exact Hs].
Defined.

(** ** Runs of a schedule with and without the override flag *)

Lemma trace_emitted w w' evs : trace w' = trace w ++ evs -> trace w' = trace w ++ emitted w w'.
Proof. intros H. by rewrite (emitted_app _ _ _ H). Qed.

Lemma included_cons_True d k e rest z :
  zonemap d !! k = Some z -> enabled z = true -> duration e <> 0 ->
  included d ((k, e) :: rest) = (k, e) :: included d rest.
Proof.
  intros Hz He Hd. unfold included. rewrite filter_cons_True; [done|].
  cbn. unfold zone_enabled. by rewrite Hz.
Qed.

Lemma included_cons_False d k e rest z :
  zonemap d !! k = Some z -> ~ (enabled z = true /\ duration e <> 0) ->
  included d ((k, e) :: rest) = included d rest.
Proof.
  intros Hz Hn. unfold included. rewrite filter_cons_False; [done|].
  cbn. unfold zone_enabled. by rewrite Hz.
Qed.

(** One turn of the zone loop for an included entry while the override
    flag stands. *)
Lemma zone_loop_step_overridden env relay_trigger k e rest d errorcode w z :
  file w = d -> overridden env w ->
  zonemap d !! k = Some z ->
  enabled z = true -> duration e <> 0 ->
  exists d' w' evs,
    zone_loop env relay_trigger ((k, e) :: rest) d errorcode w =
      zone_loop env relay_trigger rest d' 42 w' /\
    file w' = d' /\ overridden env w' /\
    enabled <$> zonemap d' = enabled <$> zonemap d /\
    trace w' = trace w ++ evs /\ sleep_trace evs = [].
Proof.
  intros Hf Ho Hz He Hd. cbn [zone_loop]. rewrite (bind_getitem_Some _ _ _ _ _ Hz).
  rewrite He. destruct (Z.eqb_spec (duration e) 0) as [|_]; [done|]. cbn [andb negb bool_decide].
  rewrite bool_decide_eq_true_2 by done. cbn [andb].
  rewrite !bind_lift.
  set (d1 := mark_zone k true z d).
  set (w1 := (WriteJSON d1 w).2).
  assert (Ho1 : overridden env w1).
  { destruct Ho as [Hov Hk]. split; [|exact Hk]. cbn. by rewrite <- Hf. }
  destruct (Irrigate_under_override env k (duration e) relay_trigger w1 Ho1)
    as (H42 & _ & HsI & HoI).
  destruct (Irrigate_spec env k (duration e) relay_trigger w1)
    as (ievs & dI & HtI & _ & HfI & HcI & _).
  cbn zeta in HtI, HfI.
  apply trace_emitted in HtI.
  set (rI := Irrigate env k (duration e) relay_trigger w1) in *.
  destruct (ReadJSON_overridden env rI.2 HoI) as (Hd2 & Ho2).
  destruct (ReadJSON_spec env rI.2) as (Ht2 & Hf2 & Hc2 & _).
  cbn zeta in Ht2, Hf2, Hc2.
  set (r2 := ReadJSON env rI.2) in *.
  assert (Hc12 : same_config d1 r2.1).
  { rewrite HfI in Hc2. eauto using same_config_trans. }
  pose proof (same_config_zonemap _ _ Hc12) as Hzm12.
  rewrite H42.
  clearbody r2 rI.
  assert (Hz2 : zonemap r2.1 !! k = Some (with_zone_active true z)).
  { rewrite Hzm12. cbn. apply lookup_insert_eq. }
  rewrite (bind_getitem_Some _ _ _ _ _ Hz2), bind_lift.
  eexists _, _, ([WriteDoc d1] ++ emitted w1 rI.2 ++
                 [ReadDoc r2.1; WriteDoc (mark_zone k false (with_zone_active true z) r2.1)]).
  split; [reflexivity|]. cbn [fst snd].
  split_and!.
  - reflexivity.
  - destruct Ho2 as [_ Hk2]. split; [|exact Hk2]. cbn. exact Hd2.
  - cbn. rewrite Hzm12. cbn. rewrite !fmap_insert, insert_insert_eq. cbn.
    apply insert_id. by rewrite lookup_fmap, Hz.
  - cbn [WriteJSON trace snd]. rewrite Ht2, HtI. cbn [WriteJSON trace snd w1].
    by rewrite <- !app_assoc.
  - rewrite !sleep_trace_app, HsI. reflexivity.
Qed.

(** The zone loop while the override flag stands: no entry is held, and
    the errorcode is 42 as soon as one entry is included. *)
Lemma zone_loop_overridden env relay_trigger items :
  forall d errorcode w,
    file w = d -> overridden env w ->
    (forall it, it ∈ items -> is_Some (zonemap d !! it.1)) ->
    exists d' w' evs,
      zone_loop env relay_trigger items d errorcode w =
        Ok (d', if decide (included d items = []) then errorcode else 42) w' /\
      trace w' = trace w ++ evs /\ sleep_trace evs = [].
Proof.
  induction items as [|[k e] rest IH]; intros d errorcode w Hf Ho Hin.
  - exists d, w, []. by rewrite app_nil_r.
  - destruct (Hin (k, e)) as [z Hz]; [set_solver|]. cbn in Hz.
    destruct (decide (enabled z = true /\ duration e <> 0)) as [[He Hd]|Hn].
    + destruct (zone_loop_step_overridden env relay_trigger k e rest d errorcode w z)
        as (d1 & w1 & evs1 & -> & Hf1 & Ho1 & Hen1 & Ht1 & Hs1); [done..|].
      destruct (IH d1 42 w1) as (d' & w' & evs & -> & Ht' & Hs'); [done..| |].
      { intros it Hit. apply (is_Some_zonemap_ext d d1); [done|]. apply Hin. set_solver. }
      exists d', w', (evs1 ++ evs).
      rewrite (included_cons_True _ _ _ _ _ Hz He Hd).
      rewrite (decide_False (P := _ :: _ = [])) by done.
      split_and!.
      * by destruct (decide _).
      * by rewrite Ht', Ht1, app_assoc.
      * by rewrite sleep_trace_app, Hs1, Hs'.
    + rewrite (zone_loop_skip _ _ _ _ _ _ _ _ _ Hz Hn).
      rewrite (included_cons_False _ _ _ _ _ Hz Hn).
      destruct (IH d errorcode w) as (d' & w' & evs & -> & Hrest); [done|done|set_solver|].
      by exists d', w', evs.
Qed.

(** The scheduled-run branch while the override flag stands. *)
Lemma schedule_run_overridden env relay_trigger s d errorcode w sched :
  schedules d !! s = Some sched ->
  dom (zones sched) ⊆ dom (zonemap d) ->
  manual_override (controls d) = true ->
  (forall k, (reads w <= k)%nat -> ext_override env k <> Some false) ->
  exists d' w',
    schedule_run_branch env relay_trigger s d errorcode w =
      Ok (d', if decide (scheduled_zones d sched = []) then errorcode else 42) w' /\
    sleep_trace (emitted w w') = [] /\
    relay_trace (emitted w w') = scheduled_zones d sched ≫= onoff relay_trigger.
Proof.
  intros Hs Hdom Hov Hk.
  destruct (schedule_run_spec env relay_trigger s d errorcode w sched Hs Hdom)
    as (d1 & ec1 & w1 & sched1 & evs & Hloop & _ & Hrun & Ht & Hrel & _).
  set (d0 := mark_schedule s true sched d) in *.
  set (w0 := (WriteJSON d0 _).2) in *.
  destruct (zone_loop_overridden env relay_trigger (sorted_items (zones sched))
              d0 errorcode w0) as (d1' & w1' & evs' & Hloop' & Ht' & Hs');
    [done|by split|by apply items_in_zonemap|].
  rewrite Hloop in Hloop'. injection Hloop' as -> Hec ->.
  assert (Hec' : ec1 = if decide (scheduled_zones d sched = []) then errorcode else 42).
  { rewrite Hec. unfold scheduled_zones.
    rewrite (included_ext d d0) by done.
    destruct (decide (included d _ = [])) as [->|Hne]; [done|].
    rewrite decide_False; [done|]. by intros ?%fmap_nil_inv. }
  rewrite <- Hec'. eexists _, _. split; [exact Hrun|]. split.
  - rewrite (emitted_app w _
               ([WriteLog (LogScheduleSelected s); WriteLog (LogScheduleFound s);
                 WriteDoc d0] ++ evs' ++ [WriteDoc (mark_schedule s false sched1 d1')])).
    + rewrite !sleep_trace_app, Hs'. reflexivity.
    + cbn [WriteJSON trace snd]. rewrite Ht'. unfold w0. cbn.
      by rewrite <- !app_assoc.
  - rewrite (emitted_app w _
               ([WriteLog (LogScheduleSelected s); WriteLog (LogScheduleFound s);
                 WriteDoc d0] ++ evs ++ [WriteDoc (mark_schedule s false sched1 d1')])).
    + rewrite !relay_trace_app, Hrel. cbn. by rewrite app_nil_r.
    + cbn [WriteJSON trace snd]. rewrite Ht. by rewrite <- !app_assoc.
Qed.

(** The document the setup goes on with is the one it read, with
    controls.active set. *)
Lemma setup_read env args w :
  exists v w1,
    setup env args w = Ok v w1 /\
    v_json_data_dict v = set_active true (ReadJSON env (write_log LogStarting w).2).1.
Proof.
  unfold setup, setup_with. rewrite !bind_lift, bind_mret. cbn [fst snd].
  destruct (ReadJSON env _) as [dr w0]. cbn [fst snd].
  destruct (negb _); [|destruct (_ || _)]; destruct (arg_force args);
    rewrite ?bind_lift, ?bind_mret; by eexists _, _.
Qed.

Lemma sleep_trace_setup evs : Forall setup_event evs -> sleep_trace evs = [].
Proof. induction 1 as [|[] ? ? ? IH]; cbn in *; auto; done. Qed.

(** A run of an existing schedule whose entries all name zones of the
    zone map and of which one at least is included, started while the
    override flag stands in the file and is cleared by nobody (it was
    left there by a run that did not reach its closing write, or set
    before the start): every included zone is switched on and at once off
    again, nothing is held, the script ends with 42 and clears the flag. *)
Theorem schedule_run_under_override env args w sched :
  arg_init args = false ->
  truthy (arg_schedule args) = true ->
  (arg_force args = true \/ weather_cancel env w = false) ->
  schedules (file w) !! requested_schedule args = Some sched ->
  dom (zones sched) ⊆ dom (zonemap (file w)) ->
  scheduled_zones (file w) sched <> [] ->
  overridden env w ->
  exists w',
    main env args w = Ok 42 w' /\
    sleep_trace (emitted w w') = [] /\
    relay_trace (emitted w w') =
      scheduled_zones (file w) sched ≫= onoff (relay_trigger (settings (file w))) /\
    manual_override (controls (file w')) = false.
Proof.
  intros Hinit Hsched Hgo Hs Hdom Hne Ho.
  assert (Hor : negb (weather_cancel env w) || arg_force args = true).
  { destruct Hgo as [Hg|Hg]; rewrite Hg; by rewrite ?orb_true_r. }
  destruct (setup_flags env args w)
    as (v & w1 & Hsetup & Hi & Hf & Hr & Hsel & _ & _ & Htrig & _ & Hc & _ & Hzm & Hsc & Hf1).
  destruct (setup_read env args w) as (v' & w1' & Hsetup' & Hdoc).
  rewrite Hsetup in Hsetup'. injection Hsetup' as <- <-.
  destruct (setup_spec env args w) as (v' & w1' & pre & Hsetup' & Htp & Hp & _).
  rewrite Hsetup in Hsetup'. injection Hsetup' as <- <-.
  destruct (setup_trace env args w) as (v' & w1' & dr & wxl & Hsetup' & _ & _ & Hrd & _).
  rewrite Hsetup in Hsetup'. injection Hsetup' as <- <-.
  assert (Ho0 : overridden env (write_log LogStarting w).2) by exact Ho.
  destruct (ReadJSON_overridden env _ Ho0) as (Hov & _).
  rewrite <- Hsc, <- Hsel in Hs. rewrite <- Hzm in Hdom.
  rewrite <- (scheduled_zones_ext _ _ sched Hzm) in Hne.
  destruct (schedule_run_overridden env (v_relay_trigger v) (v_schedule_selected v)
              (v_json_data_dict v) (v_errorcode v) w1 sched Hs Hdom)
    as (d' & w2 & Hbranch & Hsl & Hrel).
  { by rewrite Hdoc. }
  { intros k Hle. apply Ho. lia. }
  rewrite decide_False in Hbranch by done.
  assert (Htree : decision_tree env v w1 =
            schedule_run_branch env (v_relay_trigger v) (v_schedule_selected v)
              (v_json_data_dict v) (v_errorcode v) w1).
  { unfold decision_tree.
    by rewrite select_branch_cases, Hi, Hinit, Hf, Hr, Hsched, Hc, Hor. }
  rewrite Hbranch in Htree.
  destruct (main_trace_after_tree env args w v w1 _ _ _ Hsetup Htree)
    as (w' & Hm & He & Hfile).
  exists w'. split; [done|]. rewrite He, !sleep_trace_app, !relay_trace_app.
  rewrite Hsl, Hrel, (relay_trace_emitted_setup _ _ _ _ _ Hsetup).
  rewrite (emitted_app _ _ _ Htp), (sleep_trace_setup _ Hp).
  rewrite <- (scheduled_zones_ext _ _ sched Hzm), <- Htrig.
  split_and!.
  - reflexivity.
  - cbn. by rewrite app_nil_r.
  - by rewrite Hfile.
Qed.

Lemma schedule_run_under_override_witness :
  exists w',
    main ex_env ex_args_morning (mkWorld (set_manual_override true ex_doc) 0 0 0 []) =
      Ok 42 w' /\
    sleep_trace (emitted (mkWorld (set_manual_override true ex_doc) 0 0 0 []) w') = [].
Proof.
  destruct (schedule_run_under_override ex_env ex_args_morning
              (mkWorld (set_manual_override true ex_doc) 0 0 0 [])
              (mkSchedule false
                 {[ "frontlawn" := mkZoneEntry 1; "garden" := mkZoneEntry 2;
                    "backyard" := mkZoneEntry 1 ]}))
    as (w' & Hm & Hsl & _).
  - reflexivity.
  - reflexivity.
  - right. reflexivity.
  - reflexivity.
  - apply (bool_decide_unpack _). by vm_compute.
  - by vm_compute.
  - split; [reflexivity|]. intros k _. discriminate.
  - exists w'. split; [exact Hm|exact Hsl].
Defined.







(** ** A manual run that nobody overrides *)




(** ** Leaving the hold loop *)

(** The hold loop is left either because the clock shows that the
    duration has gone by or because a read saw the override flag; the
    clock does not go back. *)
Lemma hold_exit env starttime duration w :
  exists evs,
    trace (hold env starttime duration w) = trace w ++ evs /\
    (clock w <= clock (hold env starttime duration w))%Q /\
    ((inject_Z (duration * 60) <= clock (hold env starttime duration w) - starttime)%Q \/
     true ∈ override_trace evs).
Proof.
  funelim (hold env starttime duration w); clear Heqcall.
  - clear Heq. destruct (ReadJSON_spec env w) as (Ht & _ & _ & _ & Hck & _).
    unfold CheckOverride in *. destruct (ReadJSON env w) as [d w1]; cbn [fst snd] in *.
    destruct (manual_override (controls d)) eqn:Hov; cbn [Z.gtb Z.compare] in *.
    + exists [ReadDoc d]. split_and!; [done|rewrite Hck; lra|].
      right. cbn. rewrite Hov. apply elem_of_cons. by left.
    + destruct H as (evs & Ht' & Hc & Hor).
      cbn [time_sleep clock trace] in *. change (inject_Z 1) with 1%Q in *.
      pose proof (Q.le_max_l 1 (turn_time env (reads w1))) as Hone.
      set (t := Qmax 1 (turn_time env (reads w1))) in *. clearbody t.
      exists ([ReadDoc d; Sleep 1] ++ evs).
      rewrite Ht', Ht, <- !app_assoc. split_and!; [done|rewrite Hck in Hc; lra|].
      destruct Hor as [?|Hin]; [by left|right].
      rewrite override_trace_app. cbn. rewrite Hov. apply elem_of_cons. by right.
  - exists []. rewrite app_nil_r. split_and!; [done|lra|by left].
Qed.

(** Irrigate goes on to switch the zone off before the clock shows that
    the duration has gone by since the zone was switched on only if a
    read of the settings file saw the override flag. *)
Theorem Irrigate_early_only_on_override env zonename duration relay_trigger w :
  (inject_Z (duration * 60) <=
     clock (Irrigate env zonename duration relay_trigger w).2 - clock w)%Q \/
  true ∈ override_trace (emitted w (Irrigate env zonename duration relay_trigger w).2).
Proof.
  rewrite Irrigate_steps. cbv zeta.
  set (w1 := (setrelay env relay_trigger zonename _).2).
  destruct (hold_exit env (clock w) duration w1) as (evs & Ht & Hc & Hor).
  set (w2 := hold env (clock w) duration w1) in *.
  set (w3 := (setrelay env (py_not relay_trigger) zonename _).2).
  destruct (ReadJSON_spec env w3) as (Ht3 & _ & _ & _ & Hck & _).
  unfold CheckOverride. destruct (ReadJSON env w3) as [d w4]; cbn [fst snd] in *.
  change (clock w3) with (clock w2) in Hck. change (clock w1) with (clock w) in Hc.
  rewrite Hck.
  destruct Hor as [?|Hin]; [by left|right].
  rewrite (emitted_app w w4
             ([WriteLog (LogTurningOn zonename duration); SetRelay relay_trigger zonename]
              ++ evs ++ [WriteLog (LogTurningOff zonename);
                         SetRelay (py_not relay_trigger) zonename; ReadDoc d])).
  - rewrite !override_trace_app. cbn. rewrite !elem_of_app. auto.
  - rewrite Ht3. cbn [setrelay write_log emit trace snd w3]. rewrite Ht. cbn.
    by rewrite <- !app_assoc.
Qed.

(** With turns of a second and a half, one minute is over after forty
    sleeps. *)
Example slow_turns :
  length (sleep_trace (trace (Irrigate ex_env_slow "frontlawn" 1 0 ex_world).2)) = 40%nat /\
  (clock (Irrigate ex_env_slow "frontlawn" 1 0 ex_world).2 == 60)%Q.
Proof. split; by vm_compute. Qed.

(** ** Runs from the command line *)

Lemma parse_args_fields cl args :
  parse_args cl = Some args ->
  arg_zone args = cl_zone cl /\ arg_schedule args = cl_schedule cl /\
  arg_force args = cl_force cl /\ arg_init args = cl_init cl.
Proof.
  unfold parse_args. destruct (truthy (cl_duration cl)).
  - destruct (py_int _); [|done]. cbn. by intros [= <-].
  - by intros [= <-].
Qed.

(** When int() accepts the text of -d, or there is none, the script runs
    as [main] on the arguments. *)
Lemma control_accepted env cl args w :
  parse_args cl = Some args -> control env cl w = main env args w.
Proof. intros H. unfold control, main, setup, read_args. by rewrite H. Qed.

(** Otherwise the script ends at line 148 with ValueError, having logged
    its first line, read the settings file and written it back with
    controls.active set. *)
Lemma control_rejected env cl w :
  parse_args cl = None ->
  exists d w',
    control env cl w = Raise (ValueError (default "" (cl_duration cl))) w' /\
    emitted w w' = [WriteLog LogStarting; ReadDoc d; WriteDoc (set_active true d)].
Proof.
  intros H. unfold control. rewrite bind_eq.
  unfold setup_with, read_args. rewrite H, !bind_lift.
  eexists _, _. split; [reflexivity|].
  apply emitted_app. cbn. by rewrite <- !app_assoc.
Qed.

(** C7, as the code has it: with the force flag set the log never holds
    the cancellation line, the only line that carries the reasons,
    whether the script returns or raises. *)
Theorem force_logs_no_reasons env cl w :
  cl_force cl = true ->
  forall reason,
    WriteLog (LogWxCancelled reason) ∉ emitted w (world_of (control env cl w)).
Proof.
  intros Hforce reason.
  destruct (parse_args cl) as [args|] eqn:Hp.
  - rewrite (control_accepted _ _ _ _ Hp). apply main_force_no_reasons.
    destruct (parse_args_fields _ _ Hp) as (_ & _ & -> & _). done.
  - destruct (control_rejected env cl w Hp) as (d & w' & -> & He). cbn [world_of].
    rewrite He. rewrite !elem_of_cons, elem_of_nil. by intros [?|[?|[?|?]]].
Qed.

Lemma force_logs_no_reasons_witness :
  WriteLog (LogWxCancelled tag_history) ∉
    emitted ex_world (world_of (control ex_env_rain ex_cl_force ex_world)).
Proof.
  apply (force_logs_no_reasons ex_env_rain ex_cl_force ex_world eq_refl tag_history).
Defined.

(** C7 as stated fails: a forced manual run under a tripped history
    check logs the measured values and the force line, and no reason. *)
Lemma force_run_reasons_not_logged :
  cl_force ex_cl_force = true /\
  wx_flags (wx_data ex_doc) (checkweather ex_env_rain).1 = (true, tag_history) /\
  log_trace (trace (world_of (control ex_env_rain ex_cl_force ex_world))) =
    [LogStarting; LogInitPlatform RasPi; LogWxValues (Some 70%Q) (Some 2%Q) None;
     LogForce; LogManualSelected; LogTurningOn "frontlawn" 1;
     LogTurningOff "frontlawn"; LogExiting 0; LogEnded].
Proof. split_and!; by vm_compute. Qed.







(** ** Schedules that name a zone missing from the zone map *)

(** C8 fails on a schedule that names a zone missing from the zone map.
    The schedule "dawn" exists; its entry "backyard" has an enabled zone
    and a duration other than 0, so it is one of the zones to activate;
    "aaa" comes first in the order of the names and is not in the zone
    map.  The lookup of "aaa" in the zone loop raises KeyError, and the
    script ends without a single relay call.  On the schedule "morning",
    whose zones are all in the zone map, the run is as C8 says: "garden"
    is disabled and passed over, the other two zones are run in the order
    of their names. *)
Theorem schedule_run_stale_zone_first :
  schedules ex_doc_dawn !! "dawn" =
    Some (mkSchedule false {[ "aaa" := mkZoneEntry 1; "backyard" := mkZoneEntry 1 ]}) /\
  zonemap ex_doc_dawn !! "aaa" = None /\
  zonemap ex_doc_dawn !! "backyard" = Some (mkZone 17 true false) /\
  outcome (control ex_env ex_cl_dawn (mkWorld ex_doc_dawn 0 0 0 [])) =
    inr (KeyError "aaa") /\
  relay_trace (trace (world_of (control ex_env ex_cl_dawn (mkWorld ex_doc_dawn 0 0 0 []))))
    = [] /\
  relay_trace (trace (world_of
    (control ex_env (mkCmdLine None None (Some "morning") false false)
       (mkWorld ex_doc_dawn 0 0 0 [])))) =
    [(0, "backyard"); (1, "backyard"); (0, "frontlawn"); (1, "frontlawn")].
Proof. split_and!; by vm_compute. Qed.

(** C9 fails on a schedule that names a zone missing from the zone map.
    In the run of "evening" the entry "backyard" is included and is run,
    its Irrigate call returns 3 + 4; then the lookup of "sidebed" raises
    KeyError, and the schedule run ends without an errorcode.  On the
    schedule "morning", whose zones are all in the zone map, the run is
    as C9 says: the relays answer 3 and 4 for the first zone and 5 and 6
    for the second, and the run ends with 11, not with 18. *)
Theorem schedule_run_stale_zone_no_errorcode :
  scheduled_zones ex_doc
    (mkSchedule false {[ "sidebed" := mkZoneEntry 1; "backyard" := mkZoneEntry 1 ]}) =
    ["backyard"] /\
  relay_trace (trace (world_of
    (schedule_run_branch ex_env_faulty 0 "evening" ex_doc 0 ex_world))) =
    [(0, "backyard"); (1, "backyard")] /\
  outcome (schedule_run_branch ex_env_faulty 0 "evening" ex_doc 0 ex_world) =
    inr (KeyError "sidebed") /\
  outcome (control ex_env_faulty ex_cl_evening ex_world) = inr (KeyError "sidebed") /\
  outcome (control ex_env_faulty (mkCmdLine None None (Some "morning") false false)
             ex_world) = inl 11.
Proof. split_and!; by vm_compute. Qed.

(** The fourth weather check adds as Python adds floats: 0.1 + 0.2 is
    above 0.3, and 1 + 1e-17 is not above 1. *)
Example forecast_history_sum_is_rounded :
  wx_flags (mkWxData "F" false false false true (3 # 10) 0 0)
           (mkWxStatus 0 (1 # 10) (2 # 10)) = (true, tag_forecast_history) /\
  wx_flags (mkWxData "F" false false false true 1 0 0)
           (mkWxStatus 0 (1 # 100000000000000000) 1) = (false, "").
Proof. split; by vm_compute. Qed.
